(** * multilingual_t5/tasks.py: task and mixture registration

    A shallow embedding of the module [multilingual_t5/tasks.py].  The
    module has no algorithmic core: executing it top to bottom registers
    tasks and mixtures with the registries of the [t5] framework, writes one
    entry of sacrebleu's tokenizer table and defines the metric function
    [bleu].  The embedding therefore consists of

    - the string operations the module uses to build names
      ([str.format], [str.replace]);
    - the objects the module allocates and shares ([DEFAULT_VOCAB],
      [DEFAULT_OUTPUT_FEATURES]) in an explicit store;
    - the sequence of registry calls and table writes of one execution of
      the module, in load order ([load]);
    - the body of [bleu] in a state-and-exception monad, with Python's
      name resolution against the module namespace written out;
    - the sampling-rate policy [DEFAULT_MIX_RATE].

    Code that lives outside the file (the language tables of [tfds] and of
    [multilingual_t5.utils], [tf.compat.as_text], sacrebleu's
    [corpus_bleu], the sumeval tokenizer, libm's [pow]) is a Section
    variable. *)

From Stdlib Require Import ZArith List String Ascii Bool Lia Reals Lra SpecFloat.
From stdpp Require Import base gmap strings list.

Local Open Scope string_scope.
Local Open Scope list_scope.

(** stdpp blocks the reduction of string concatenation; names are built by
    concatenation here, so it is allowed again. *)
#[local] Arguments String.append !_ _ / : simpl nomatch.

(* ================================================================== *)
(** * Python strings *)

(** [s.replace(old, new)] for one-character [old] and [new]: every
    occurrence of the character is substituted, nothing else changes. *)
Fixpoint replace (old new : ascii) (s : string) : string :=
  match s with
  | EmptyString => EmptyString
  | String c rest =>
      String (if Ascii.eqb c old then new else c) (replace old new rest)
  end.

(** [template.format(arg)] for a template with a single [{}] field (all
    templates of the module have exactly one; an f-string with one
    interpolation is the same operation). *)
Fixpoint format (template arg : string) : string :=
  match template with
  | EmptyString => EmptyString
  | String "{" (String "}" rest) => arg +:+ rest
  | String c rest => String c (format rest arg)
  end.

(** [sep.join(words)] *)
Fixpoint join (sep : string) (words : list string) : string :=
  match words with
  | [] => ""
  | [w] => w
  | w :: ws => w +:+ sep +:+ join sep ws
  end.

(** The character test used to state that a language code is free of the
    replacement character. *)
Fixpoint mentions (c : ascii) (s : string) : bool :=
  match s with
  | EmptyString => false
  | String d rest => Ascii.eqb d c || mentions c rest
  end.

(* ================================================================== *)
(** * Python floats (IEEE 754 binary64) *)

Definition prec : Z := 53.
Definition emax : Z := 1024.

(** Conversion of a Python [int] (and of an integral literal such as
    [1.0]) to the nearest double. *)
Definition b64_of_Z (z : Z) : spec_float := binary_normalize prec emax z 0 false.
Definition b64_div : spec_float -> spec_float -> spec_float := SFdiv prec emax.

(** The arithmetic the rate policy needs; the module computes on doubles,
    the specification speaks of real weights, so both are instances. *)
Class Arith (F : Type) := {
  of_int : Z -> F;
  div : F -> F -> F
}.

(** Exponentiation, Python's [**]. *)
Class Power (F : Type) := pow : F -> F -> F.

(** Doubles: conversion and division are the IEEE operations. *)
#[export] Instance Arith_b64 : Arith spec_float :=
  {| of_int := b64_of_Z; div := b64_div |}.

#[export] Instance Arith_R : Arith R :=
  {| of_int := IZR; div := Rdiv |}.

#[export] Instance Power_R : Power R := Rpower.

Section Rate.
Context {F : Type} {A : Arith F}.

(** The literals [1.0] and [0.3]; a decimal literal denotes the
    correctly rounded value, and so does a division of two exactly
    represented integers. *)
Definition lit_1_0 : F := of_int 1.
Definition lit_0_3 : F := div (of_int 3) (of_int 10).

(** [DEFAULT_TEMPERATURE = 1.0 / 0.3] *)
Definition DEFAULT_TEMPERATURE : F := div lit_1_0 lit_0_3.

Context {P : Power F}.

(** Modelled from the spec: [t5.data.utils.rate_num_examples] is a
    function of the external framework; section 4.1 gives its contract,
    "given a task's example count n and a temperature T, returns a
    sampling weight proportional to n^(1/T)". *)
Definition rate_num_examples (n : positive) (temperature : F) : F :=
  pow (of_int (Zpos n)) (div lit_1_0 temperature).

(** [DEFAULT_MIX_RATE = functools.partial(rate_num_examples,
    temperature=DEFAULT_TEMPERATURE)] *)
Definition DEFAULT_MIX_RATE (n : positive) : F :=
  rate_num_examples n DEFAULT_TEMPERATURE.
End Rate.

(** What a mixture stores as [default_rate]: the partial application above
    or a constant. *)
Inductive rate : Type :=
  | RateNumExamples (temperature : spec_float)
  | RateConst (r : spec_float).

(* ================================================================== *)
(** * Objects shared between tasks *)

Definition addr := nat.

Inductive object : Type :=
  | SentencePieceVocabulary (path : string)
  | Feature (vocabulary : addr) (add_eos : bool) (required : bool)
  | Dict (items : list (string * addr)).

Definition store := list object.

(** Allocation returns the fresh address and the extended store. *)
Definition alloc (o : object) (h : store) : addr * store :=
  (length h, h ++ [o]).

(** [d[key]] on a stored dictionary. *)
Fixpoint assoc {A} (key : string) (items : list (string * A)) : option A :=
  match items with
  | [] => None
  | (k, v) :: rest => if String.eqb k key then Some v else assoc key rest
  end.

Definition getitem (h : store) (d : addr) (key : string) : option object :=
  match h !! d with
  | Some (Dict items) =>
      match assoc key items with
      | Some a => h !! a
      | None => None
      end
  | _ => None
  end.

(* ================================================================== *)
(** * Tasks, mixtures and the effects of loading the module *)

Inductive task_class := TfdsTask | TextLineTask.

Inductive splits_arg : Type :=
  | SplitList (names : list string)
  | SplitMap (m : list (string * string)).

Inductive preprocessor : Type :=
  | rekey (key_map : list (string * option string))
  | span_corruption
  | process_mnli
  | process_xnli (target_languages : list string)
  | glue (benchmark_name : string) (label_names feature_names : list string)
         (id_key : option string)
  | xquad
  | parse_tsv (field_names : list string).

(** [text_preprocessor] is passed either as one callable or as a list. *)
Inductive preprocessors : Type :=
  | One (p : preprocessor)
  | Many (ps : list preprocessor).

Inductive postprocessor : Type :=
  | string_label_to_class_id (label_classes : list string)
  | qa.

Inductive metric_fn := accuracy | squad | bleu_fn.

Inductive dataset_fn_ref := pawsx_all_langs_dataset_fn | xquad_all_langs_dataset_fn.

(** The arguments of one [TaskRegistry.add] call; an omitted keyword is
    [None]. *)
Record task : Type := {
  name : string;
  cls : option task_class;
  tfds_name : option string;
  splits : option splits_arg;
  split_to_filepattern : option (list (string * string));
  dataset_fn : option dataset_fn_ref;
  text_preprocessor : preprocessors;
  token_preprocessor : option preprocessor;
  output_features : addr;
  postprocess_fn : option postprocessor;
  metric_fns : list metric_fn
}.

(** What executing the module does to the outside, one constructor per
    kind of statement with an effect. *)
Inductive effect : Type :=
  | TaskAdd (t : task)
  | MixtureAdd (mixture : string) (tasks : list string) (default_rate : rate)
  | TokenizerSet (key : string) (tokenizer : string -> string).

Definition task_names (es : list effect) : list string :=
  flat_map (fun e => match e with TaskAdd t => [name t] | _ => [] end) es.

Definition tokenizer_writes (es : list effect) : list (string * (string -> string)) :=
  flat_map (fun e => match e with TokenizerSet k f => [(k, f)] | _ => [] end) es.

Definition mixture_names (es : list effect) : list string :=
  flat_map (fun e => match e with MixtureAdd m _ _ => [m] | _ => [] end) es.

(** The tokenizer table after a run of effects. *)
Definition apply_effect (T : gmap string (string -> string)) (e : effect)
  : gmap string (string -> string) :=
  match e with
  | TokenizerSet k f => <[k := f]> T
  | _ => T
  end.

Definition apply_effects (es : list effect) (T : gmap string (string -> string))
  : gmap string (string -> string) :=
  fold_left apply_effect es T.

(* ================================================================== *)
(** * Python values, exceptions and the evaluation monad *)

#[local] Set Warnings "-register-all".
Inductive pyval : Type :=
  | PyStr (s : string)
  | PyBytes (b : list Byte.byte)
  | PyInt (z : Z)
  | PyList (items : list pyval).

Inductive exn : Type :=
  | NameError (name : string)
  | IndexError
  | TypeError
  | LibraryError (what : string).

Inductive outcome (A : Type) : Type :=
  | Return (a : A)
  | Raise (e : exn).
Arguments Return {A} a.
Arguments Raise {A} e.

(** The process-wide state a metric call can touch: sacrebleu's tokenizer
    table, and a counter of the scores computed so far. *)
Record world : Type := {
  TOKENIZERS : gmap string (string -> string);
  scores_computed : nat
}.

Definition py (A : Type) : Type := world -> outcome A * world.

Definition ret {A} (a : A) : py A := fun w => (Return a, w).
Definition raise {A} (e : exn) : py A := fun w => (Raise e, w).
Definition bind {A B} (c : py A) (k : A -> py B) : py B :=
  fun w =>
    match c w with
    | (Return a, w') => k a w'
    | (Raise e, w') => (Raise e, w')
    end.
Definition lift {A} (o : outcome A) : py A := fun w => (o, w).

Declare Scope py_scope.
Delimit Scope py_scope with py.
Notation "x <- c ;; k" := (bind c (fun x => k))
  (at level 100, c at next level, right associativity) : py_scope.
Notation "c ;;; k" := (bind c (fun _ => k))
  (at level 100, right associativity) : py_scope.
Local Open Scope py_scope.

(** [[body(x) for x in xs]]: the body runs once per element, in order, and
    the first exception ends the comprehension. *)
Fixpoint comprehension {A B} (body : A -> py B) (xs : list A) : py (list B) :=
  match xs with
  | [] => ret []
  | x :: rest =>
      y <- body x ;;
      ys <- comprehension body rest ;;
      ret (y :: ys)
  end.

(** [xs[0]] *)
Definition subscript0 {A} (xs : list A) : py A :=
  match xs with
  | [] => raise IndexError
  | x :: _ => ret x
  end.

(** [isinstance(v, list)] *)
Definition isinstance_list (v : pyval) : bool :=
  match v with PyList _ => true | _ => false end.

(** The elements [for x in v] visits. *)
Definition iterate (v : pyval) : py (list pyval) :=
  match v with
  | PyList items => ret items
  | PyStr s => ret (map (fun c => PyStr (String c EmptyString)) (list_ascii_of_string s))
  | PyBytes b => ret (map (fun c => PyInt (Z.of_N (Byte.to_N c))) b)
  | PyInt _ => raise TypeError
  end.

(** ** Name resolution *)

Inductive import_stmt : Type :=
  | Import (module : string) (asname : option string)
  | FromImport (module : string) (names : list string).

(** [import a.b] binds [a]. *)
Fixpoint top_package (module : string) : string :=
  match module with
  | EmptyString => EmptyString
  | String "." _ => EmptyString
  | String c rest => String c (top_package rest)
  end.

Definition bound_by (i : import_stmt) : list string :=
  match i with
  | Import m None => [top_package m]
  | Import _ (Some a) => [a]
  | FromImport _ names => names
  end.

(** The built-in functions and constants; the exception classes, which
    are in [builtins] as well, all start with a capital letter. *)
Definition builtins : list string :=
  [ "abs"; "all"; "any"; "ascii"; "bin"; "bool"; "breakpoint"; "bytearray";
    "bytes"; "callable"; "chr"; "classmethod"; "compile"; "complex";
    "delattr"; "dict"; "dir"; "divmod"; "enumerate"; "eval"; "exec";
    "filter"; "float"; "format"; "frozenset"; "getattr"; "globals";
    "hasattr"; "hash"; "help"; "hex"; "id"; "input"; "int"; "isinstance";
    "issubclass"; "iter"; "len"; "list"; "locals"; "map"; "max";
    "memoryview"; "min"; "next"; "object"; "oct"; "open"; "ord"; "pow";
    "print"; "property"; "range"; "repr"; "reversed"; "round"; "set";
    "setattr"; "slice"; "sorted"; "staticmethod"; "str"; "sum"; "super";
    "tuple"; "type"; "vars"; "zip"; "__import__"; "NotImplemented";
    "Ellipsis"; "__debug__" ].

(** A global name is looked up in the module namespace, then in
    [builtins]; a name found in neither raises [NameError]. *)
Definition load_global (globals : gset string) (name : string) : py unit :=
  if decide (name ∈ globals) then ret tt
  else if decide (name ∈ builtins) then ret tt
  else raise (NameError name).

(** ** The statements of the module that bind a name *)

Definition imports : list import_stmt :=
  [ Import "functools" None;
    FromImport "multilingual_t5" ["preprocessors"];
    FromImport "multilingual_t5" ["utils"];
    Import "t5.data" None;
    FromImport "t5.data" ["sentencepiece_vocabulary"];
    FromImport "t5.evaluation" ["metrics"];
    Import "tensorflow_datasets" (Some "tfds");
    FromImport "sumeval.metrics.lang.lang_ja" ["LangJA"];
    FromImport "sacrebleu" ["corpus_bleu"; "TOKENIZERS"] ].

(** Targets of module-level assignments, [for] loops and [def]s, in
    order of first binding. *)
Definition assigned : list string :=
  [ "DEFAULT_SPM_PATH"; "DEFAULT_TEMPERATURE"; "DEFAULT_MIX_RATE";
    "DEFAULT_VOCAB"; "DEFAULT_OUTPUT_FEATURES"; "MC4_LANGS"; "WIKI_LANGS";
    "lang"; "mc4"; "wiki"; "XNLI_LANGS"; "xnli_zeroshot"; "label_names";
    "text_preprocessor"; "postprocess_fn"; "pawsx"; "pawsx_translate";
    "TYDIQA_LANGS"; "tydiqa"; "xquad_test"; "xquad_zeroshot";
    "xquad_translate_train_dev"; "xquad_translate"; "lang_ja";
    "tokenizer_ja"; "bleu"; "snow_tsv_path" ].

(** Names every module has before its first statement runs. *)
Definition implicit_globals : list string :=
  [ "__name__"; "__doc__"; "__package__"; "__loader__"; "__spec__";
    "__file__"; "__cached__"; "__builtins__" ].

Definition module_globals : gset string :=
  list_to_set (implicit_globals ++ flat_map bound_by imports ++ assigned).

(** Keyword arguments of sacrebleu's [corpus_bleu]. *)
Record bleu_options : Type := {
  smooth_method : string;
  smooth_value : spec_float;
  force : bool;
  lowercase : bool;
  tokenize : string;
  use_effective_order : bool
}.

(* ================================================================== *)
(** * Concrete inputs

    Tables of the shape the module receives from [tfds] and
    [multilingual_t5.utils] (mC4 codes carry script suffixes such as
    [zh-Latn]), a tokenizer that keeps the text as one word, an
    [as_text] that returns its argument, a scorer that always answers 100
    and a state with an empty tokenizer table.  The examples at the end of
    the file run the module on them. *)

Definition sample_MC4_LANGS : list string :=
  ["af"; "bg"; "bg-Latn"; "en"; "ja"; "ja-Latn"; "zh"; "zh-Latn"].
Definition sample_PAWSX_LANGS : list string :=
  ["de"; "en"; "es"; "fr"; "ja"; "ko"; "zh"].
Definition sample_XQUAD_LANGS_TRAIN_DEV : list string :=
  ["ar"; "de"; "el"; "es"; "hi"; "ru"; "th"; "tr"; "vi"; "zh"].
Definition sample_XQUAD_LANGS_TEST : list string :=
  sample_XQUAD_LANGS_TRAIN_DEV ++ ["en"].
Definition sample_tokenize (text : string) : list string := [text].
Definition sample_as_text (x : pyval) : outcome pyval := Return x.
Definition sample_corpus_bleu (sys refs : list pyval) (options : bleu_options)
    (table : gmap string (string -> string)) : outcome spec_float :=
  Return (b64_of_Z 100).
Definition sample_world : world :=
  {| TOKENIZERS := ∅; scores_computed := 0 |}.

(** An [as_text] that accepts text and bytes only, and a namespace in
    which [tf] has been bound beside the module's names. *)
Definition sample_strict_as_text (x : pyval) : outcome pyval :=
  match x with
  | PyStr _ | PyBytes _ => Return x
  | _ => Raise TypeError
  end.
Definition sample_globals : gset string := {[ "tf" ]} ∪ module_globals.

(* ================================================================== *)
(** * The module *)

Section Tasks.

(** ** What the module takes from elsewhere *)

(** [tfds.text.c4.MC4_LANGUAGES] *)
Variable MC4_LANGS : list string.
(** [utils.PAWSX_LANGS], [utils.XQUAD_LANGS_TRAIN_DEV],
    [utils.XQUAD_LANGS_TEST] *)
Variable PAWSX_LANGS : list string.
Variable XQUAD_LANGS_TRAIN_DEV : list string.
Variable XQUAD_LANGS_TEST : list string.
(** The value [t5.data.Feature] gives [required] when the keyword is
    omitted. *)
Variable Feature_required_default : bool.
(** [lang_ja.tokenize_with_preprocess] of sumeval *)
Variable tokenize_with_preprocess : string -> list string.
(** [tf.compat.as_text] *)
Variable as_text : pyval -> outcome pyval.
(** sacrebleu's [corpus_bleu(sys, refs, **options)] followed by
    [.score]; it reads the tokenizer table. *)
Variable corpus_bleu :
  list pyval -> list pyval -> bleu_options ->
  gmap string (string -> string) -> outcome spec_float.

(** ** Constants *)

Definition DEFAULT_SPM_PATH : string :=
  "gs://t5-data/vocabs/mc4.250000.100extra/sentencepiece.model".

(** The objects built by the assignments to [DEFAULT_VOCAB] and
    [DEFAULT_OUTPUT_FEATURES], in evaluation order: the vocabulary, the
    two features, the dictionary. *)
Definition module_objects : (addr * addr) * store :=
  let '(vocab, h) := alloc (SentencePieceVocabulary DEFAULT_SPM_PATH) [] in
  let '(inputs, h) := alloc (Feature vocab true false) h in
  let '(targets, h) := alloc (Feature vocab true Feature_required_default) h in
  let '(features, h) := alloc (Dict [("inputs", inputs); ("targets", targets)]) h in
  ((vocab, features), h).

Definition DEFAULT_VOCAB : addr := fst (fst module_objects).
Definition DEFAULT_OUTPUT_FEATURES : addr := snd (fst module_objects).
Definition module_store : store := snd module_objects.

Definition WIKI_LANGS : list string :=
  [ "af"; "an"; "ar"; "ast"; "az"; "azb"; "ba"; "bar"; "be"; "bg"; "bn"; "bpy";
    "br"; "bs"; "ca"; "ce"; "ceb"; "cs"; "cv"; "cy"; "da"; "de"; "el"; "en";
    "es"; "et"; "eu"; "fa"; "fi"; "fr"; "fy"; "ga"; "gl"; "gu"; "he"; "hi";
    "hr"; "ht"; "hu"; "hy"; "id"; "io"; "is"; "it"; "ja"; "jv"; "ka"; "kk";
    "kn"; "ko"; "ky"; "la"; "lb"; "lmo"; "lt"; "lv"; "mg"; "min"; "mk"; "ml";
    "mn"; "mr"; "ms"; "my"; "nds-nl"; "ne"; "new"; "nl"; "nn"; "no"; "oc";
    "pa"; "pl"; "pms"; "pnb"; "pt"; "ro"; "ru"; "scn"; "sco"; "sh"; "sk"; "sl";
    "sq"; "sr"; "su"; "sv"; "sw"; "ta"; "te"; "tg"; "th"; "tl"; "tr"; "tt";
    "uk"; "ur"; "uz"; "vi"; "vo"; "war"; "yo"; "zh" ].

Definition XNLI_LANGS : list string :=
  [ "ar"; "bg"; "de"; "el"; "en"; "es"; "fr"; "hi"; "ru"; "sw"; "th"; "tr";
    "ur"; "vi"; "zh" ].

Definition TYDIQA_LANGS : list string :=
  [ "ar"; "bn"; "en"; "fi"; "id"; "ko"; "ru"; "sw"; "te" ].

Definition label_names : list string := ["different_meaning"; "paraphrase"].

(** The module-level [text_preprocessor] and [postprocess_fn] of the PAWS
    block (the record fields of the same names are the keywords). *)
Definition paws_text_preprocessor : preprocessors :=
  Many [glue "paws" label_names ["sentence1"; "sentence2"] None].
Definition paws_postprocess_fn : postprocessor :=
  string_label_to_class_id label_names.

Definition snow_tsv_path : list (string * string) :=
  [ ("train", "./snow_t15_23_train.tsv");
    ("validation", "./snow_t15_23_dev.tsv");
    ("test", "./snow_t15_23_test.tsv") ].

(** [default_rate=DEFAULT_MIX_RATE] and [default_rate=1.0] *)
Definition rate_mix : rate := RateNumExamples DEFAULT_TEMPERATURE.
Definition rate_1_0 : rate := RateConst lit_1_0.

(** ** Name templates *)

Definition mc4_name (lang : string) := format "mc4.{}" (replace "-" "_" lang).
Definition wiki_name (lang : string) := format "wiki.{}" (replace "-" "_" lang).
Definition xnli_dev_test_name (lang : string) := format "xnli_dev_test.{}" lang.
Definition pawsx_dev_test_name (lang : string) := format "pawsx_dev_test.{}" lang.
Definition pawsx_translate_name (lang : string) := format "pawsx_translate.{}" lang.
Definition tydiqa_dev_name (lang : string) := format "tydiqa_dev.{}" lang.
Definition xquad_translate_train_dev_name (lang : string) :=
  format "xquad_translate_train_dev.{}" lang.
Definition xquad_test_name (lang : string) := format "xquad_test.{}" lang.

(** ** The registered tasks *)

Definition rekey_text : preprocessor :=
  rekey [("inputs", None); ("targets", Some "text")].

Definition mc4_task (lang : string) : task :=
  {| name := mc4_name lang;
     cls := Some TfdsTask;
     tfds_name := Some "c4/multilingual:3.0.1";
     splits := Some (SplitMap [ ("train", lang);
                                ("validation", format "{}-validation" lang) ]);
     split_to_filepattern := None;
     dataset_fn := None;
     text_preprocessor := One rekey_text;
     token_preprocessor := Some span_corruption;
     output_features := DEFAULT_OUTPUT_FEATURES;
     postprocess_fn := None;
     metric_fns := [] |}.

Definition wiki_task (lang : string) : task :=
  {| name := wiki_name lang;
     cls := Some TfdsTask;
     tfds_name := Some (format "wikipedia/20200301.{}:1.0.0" lang);
     splits := None;
     split_to_filepattern := None;
     dataset_fn := None;
     text_preprocessor := Many [rekey_text];
     token_preprocessor := Some span_corruption;
     output_features := DEFAULT_OUTPUT_FEATURES;
     postprocess_fn := None;
     metric_fns := [] |}.

Definition xnli_train_task : task :=
  {| name := "xnli_train";
     cls := Some TfdsTask;
     tfds_name := Some "multi_nli/plain_text:1.0.0";
     splits := Some (SplitList ["train"]);
     split_to_filepattern := None;
     dataset_fn := None;
     text_preprocessor := One process_mnli;
     token_preprocessor := None;
     output_features := DEFAULT_OUTPUT_FEATURES;
     postprocess_fn := None;
     metric_fns := [accuracy] |}.

Definition xnli_task (task_name : string) (target_languages : list string) : task :=
  {| name := task_name;
     cls := Some TfdsTask;
     tfds_name := Some "xnli:1.1.0";
     splits := Some (SplitList ["validation"; "test"]);
     split_to_filepattern := None;
     dataset_fn := None;
     text_preprocessor := Many [process_xnli target_languages];
     token_preprocessor := None;
     output_features := DEFAULT_OUTPUT_FEATURES;
     postprocess_fn := None;
     metric_fns := [accuracy] |}.

Definition xnli_dev_test_task (lang : string) : task :=
  xnli_task (xnli_dev_test_name lang) [lang].
Definition xnli_all_langs_task : task :=
  xnli_task "xnli_dev_test.all_langs" XNLI_LANGS.

Definition paws_tfds_task (task_name dataset : string) (split_names : list string)
  : task :=
  {| name := task_name;
     cls := Some TfdsTask;
     tfds_name := Some dataset;
     splits := Some (SplitList split_names);
     split_to_filepattern := None;
     dataset_fn := None;
     text_preprocessor := paws_text_preprocessor;
     token_preprocessor := None;
     output_features := DEFAULT_OUTPUT_FEATURES;
     postprocess_fn := Some paws_postprocess_fn;
     metric_fns := [accuracy] |}.

Definition paws_task : task :=
  paws_tfds_task "paws" "paws_x_wiki/en:1.0.0" ["train"].
Definition pawsx_dev_test_task (lang : string) : task :=
  paws_tfds_task (pawsx_dev_test_name lang)
                 (format "paws_x_wiki/{}:1.0.0" lang) ["validation"; "test"].
Definition pawsx_translate_task (lang : string) : task :=
  paws_tfds_task (pawsx_translate_name lang)
                 (format "paws_x_wiki/{}:1.0.0" lang) ["train"].

Definition pawsx_all_langs_task : task :=
  {| name := "pawsx_dev_test.all_langs";
     cls := None;
     tfds_name := None;
     splits := Some (SplitList ["validation"; "test"]);
     split_to_filepattern := None;
     dataset_fn := Some pawsx_all_langs_dataset_fn;
     text_preprocessor := paws_text_preprocessor;
     token_preprocessor := None;
     output_features := DEFAULT_OUTPUT_FEATURES;
     postprocess_fn := Some paws_postprocess_fn;
     metric_fns := [accuracy] |}.

Definition qa_tfds_task (task_name dataset : string) (split_spec : splits_arg)
  : task :=
  {| name := task_name;
     cls := Some TfdsTask;
     tfds_name := Some dataset;
     splits := Some split_spec;
     split_to_filepattern := None;
     dataset_fn := None;
     text_preprocessor := One xquad;
     token_preprocessor := None;
     output_features := DEFAULT_OUTPUT_FEATURES;
     postprocess_fn := Some qa;
     metric_fns := [squad] |}.

Definition tydiqa_train_dev_task : task :=
  qa_tfds_task "tydiqa_train_dev" "tydi_qa/goldp:2.0.0"
               (SplitList ["train"; "validation"]).
Definition tydiqa_dev_task (lang : string) : task :=
  qa_tfds_task (tydiqa_dev_name lang) "tydi_qa/goldp:2.0.0"
               (SplitMap [("validation", format "validation-{}" lang)]).
Definition squad_train_dev_task : task :=
  qa_tfds_task "squad_train_dev" "squad/v1.1:2.0.0"
               (SplitList ["train"; "validation"]).
Definition xquad_translate_train_dev_task (lang : string) : task :=
  qa_tfds_task (xquad_translate_train_dev_name lang)
               (format "xquad/{}:2.0.0" lang)
               (SplitMap [ ("train", "translate-train");
                           ("validation", "translate-dev") ]).
Definition xquad_test_task (lang : string) : task :=
  qa_tfds_task (xquad_test_name lang) (format "xquad/{}:2.0.0" lang)
               (SplitList ["test"]).

Definition xquad_all_langs_task : task :=
  {| name := "xquad_test.all_langs";
     cls := None;
     tfds_name := None;
     splits := Some (SplitList ["test"]);
     split_to_filepattern := None;
     dataset_fn := Some xquad_all_langs_dataset_fn;
     text_preprocessor := One xquad;
     token_preprocessor := None;
     output_features := DEFAULT_OUTPUT_FEATURES;
     postprocess_fn := Some qa;
     metric_fns := [squad] |}.

Definition snow_task : task :=
  {| name := "snow";
     cls := Some TextLineTask;
     tfds_name := None;
     splits := None;
     split_to_filepattern := Some snow_tsv_path;
     dataset_fn := None;
     text_preprocessor := Many [parse_tsv ["inputs"; "targets"]];
     token_preprocessor := None;
     output_features := DEFAULT_OUTPUT_FEATURES;
     postprocess_fn := None;
     metric_fns := [bleu_fn] |}.

(** ** The mixtures' task lists *)

Definition mc4 : list string := map mc4_name MC4_LANGS.
Definition wiki : list string := map wiki_name WIKI_LANGS.
Definition xnli_zeroshot : list string :=
  ["xnli_train"; "xnli_dev_test.all_langs"] ++ map xnli_dev_test_name XNLI_LANGS.
Definition pawsx : list string :=
  ["paws"] ++ ["pawsx_dev_test.all_langs"] ++ map pawsx_dev_test_name PAWSX_LANGS.
Definition pawsx_translate : list string :=
  map pawsx_translate_name PAWSX_LANGS ++ ["pawsx_dev_test.all_langs"]
  ++ map pawsx_dev_test_name PAWSX_LANGS.
Definition tydiqa : list string :=
  ["tydiqa_train_dev"] ++ map tydiqa_dev_name TYDIQA_LANGS.
Definition xquad_test : list string := map xquad_test_name XQUAD_LANGS_TEST.
Definition xquad_zeroshot : list string :=
  ["squad_train_dev"; "xquad_test.all_langs"] ++ xquad_test.
Definition xquad_translate_train_dev : list string :=
  map xquad_translate_train_dev_name XQUAD_LANGS_TRAIN_DEV ++ ["squad_train_dev"].
Definition xquad_translate : list string :=
  xquad_translate_train_dev ++ ["xquad_test.all_langs"] ++ xquad_test.

(** ** The tokenizer installed for Japanese *)

Definition tokenizer_ja (text : string) : string :=
  join " " (tokenize_with_preprocess text).

(** ** Loading the module

    The effects of the module's statements, in the order the statements
    run; a [for] loop contributes the effects of its body once per
    element. *)
Definition load : list effect :=
  (* mC4 *)
  map (fun lang => TaskAdd (mc4_task lang)) MC4_LANGS
  ++ [MixtureAdd "mc4" mc4 rate_mix]
  (* Wikipedia *)
  ++ map (fun lang => TaskAdd (wiki_task lang)) WIKI_LANGS
  ++ [MixtureAdd "wiki" wiki rate_mix]
  ++ [MixtureAdd "mc4_wiki" (mc4 ++ wiki) rate_mix]
  (* XNLI *)
  ++ [TaskAdd xnli_train_task]
  ++ map (fun lang => TaskAdd (xnli_dev_test_task lang)) XNLI_LANGS
  ++ [TaskAdd xnli_all_langs_task]
  ++ [MixtureAdd "xnli_zeroshot" xnli_zeroshot rate_1_0]
  (* PAWS *)
  ++ [TaskAdd paws_task]
  ++ flat_map (fun lang => [ TaskAdd (pawsx_dev_test_task lang);
                             TaskAdd (pawsx_translate_task lang) ]) PAWSX_LANGS
  ++ [TaskAdd pawsx_all_langs_task]
  ++ [MixtureAdd "pawsx_zeroshot" pawsx rate_1_0]
  ++ [MixtureAdd "pawsx_translate" pawsx_translate rate_1_0]
  (* TyDiQA GoldP *)
  ++ [TaskAdd tydiqa_train_dev_task]
  ++ map (fun lang => TaskAdd (tydiqa_dev_task lang)) TYDIQA_LANGS
  ++ [MixtureAdd "tydiqa" tydiqa rate_1_0]
  (* English SQuAD, XQuAD *)
  ++ [TaskAdd squad_train_dev_task]
  ++ map (fun lang => TaskAdd (xquad_translate_train_dev_task lang))
         XQUAD_LANGS_TRAIN_DEV
  ++ map (fun lang => TaskAdd (xquad_test_task lang)) XQUAD_LANGS_TEST
  ++ [TaskAdd xquad_all_langs_task]
  ++ [MixtureAdd "xquad_zeroshot" xquad_zeroshot rate_1_0]
  ++ [MixtureAdd "xquad_translate" xquad_translate rate_1_0]
  (* the added block *)
  ++ [TokenizerSet "ja" tokenizer_ja]
  ++ [TaskAdd snow_task].

(** ** The metric function *)

(** One evaluation of the expression [tf.compat.as_text(x)]: the global
    [tf] is resolved first. *)
Definition call_as_text (globals : gset string) (x : pyval) : py pyval :=
  load_global globals "tf" ;;;
  lift (as_text x).

(** The call of [corpus_bleu] and the read of [.score]. *)
Definition call_corpus_bleu (globals : gset string)
    (sys refs : list pyval) (options : bleu_options) : py spec_float :=
  load_global globals "corpus_bleu" ;;;
  fun w =>
    (corpus_bleu sys refs options (TOKENIZERS w),
     {| TOKENIZERS := TOKENIZERS w; scores_computed := S (scores_computed w) |}).

Definition bleu_corpus_options : bleu_options :=
  {| smooth_method := "exp";
     smooth_value := S754_zero false;
     force := false;
     lowercase := false;
     tokenize := "ja";
     use_effective_order := false |}.

Definition bleu (globals : gset string) (targets predictions : list pyval)
  : py (gmap string spec_float) :=
  predictions <- comprehension (call_as_text globals) predictions ;;
  load_global globals "isinstance" ;;;
  first <- subscript0 targets ;;
  load_global globals "list" ;;;
  targets <-
    (if isinstance_list first then
       comprehension
         (fun target =>
            xs <- iterate target ;;
            ys <- comprehension (call_as_text globals) xs ;;
            ret (PyList ys))
         targets
     else
       ys <- comprehension (call_as_text globals) targets ;;
       ret [PyList ys]) ;;
  score <- call_corpus_bleu globals predictions targets bleu_corpus_options ;;
  ret {[ "bleu" := score ]}.

(** ** Derived views of [load], used to state the results

    The names passed to [TaskRegistry.add], in load order
    ([task_names_load] below shows that this is [task_names load]). *)
Definition registered_names : list string :=
  map mc4_name MC4_LANGS
  ++ map wiki_name WIKI_LANGS
  ++ ["xnli_train"]
  ++ map xnli_dev_test_name XNLI_LANGS
  ++ ["xnli_dev_test.all_langs"]
  ++ ["paws"]
  ++ flat_map (fun lang => [pawsx_dev_test_name lang; pawsx_translate_name lang])
              PAWSX_LANGS
  ++ ["pawsx_dev_test.all_langs"]
  ++ ["tydiqa_train_dev"]
  ++ map tydiqa_dev_name TYDIQA_LANGS
  ++ ["squad_train_dev"]
  ++ map xquad_translate_train_dev_name XQUAD_LANGS_TRAIN_DEV
  ++ map xquad_test_name XQUAD_LANGS_TEST
  ++ ["xquad_test.all_langs"]
  ++ ["snow"].


(** Walking a run of effects with the names registered so far: every
    mixture may only list names already seen. *)
Fixpoint constituents_registered (seen : list string) (es : list effect) : Prop :=
  match es with
  | [] => True
  | TaskAdd t :: rest => constituents_registered (seen ++ [name t]) rest
  | MixtureAdd _ tasks _ :: rest =>
      (forall t, In t tasks -> In t seen) /\ constituents_registered seen rest
  | TokenizerSet _ _ :: rest => constituents_registered seen rest
  end.

(** No two different codes of [langs] receive the same name. *)
Definition collision_free (langs : list string) (template : string -> string)
  : Prop :=
  forall a b, In a langs -> In b langs -> a <> b -> template a <> template b.

(** ** Further views used by the results on [bleu] and on the mixtures *)

(** A value over which [for x in v] runs no iteration. *)
Definition iterates_empty (v : pyval) : bool :=
  match v with
  | PyList [] => true
  | PyStr EmptyString => true
  | PyBytes [] => true
  | _ => false
  end.

(** The arguments on which no element is ever converted: no prediction,
    a first target that is an empty list, and nothing to iterate in the
    other targets. *)
Definition nothing_to_convert (targets predictions : list pyval) : bool :=
  match predictions, targets with
  | [], PyList [] :: rest => forallb iterates_empty rest
  | _, _ => false
  end.

(** The state after one call of [corpus_bleu]. *)
Definition scored_once (w : world) : world :=
  {| TOKENIZERS := TOKENIZERS w; scores_computed := S (scores_computed w) |}.

(** What [bleu] returns once [corpus_bleu] has answered. *)
Definition metric_of (o : outcome spec_float) : outcome (gmap string spec_float) :=
  match o with
  | Return score => Return {[ "bleu" := score ]}
  | Raise e => Raise e
  end.

(** The split names a registration states: the elements of a list, the
    keys of a dictionary, the keys of [split_to_filepattern]; [None] when
    the call leaves the splits to the dataset. *)
Definition declared_splits (t : task) : option (list string) :=
  match splits t, split_to_filepattern t with
  | Some (SplitList names), _ => Some names
  | Some (SplitMap m), _ => Some (map fst m)
  | None, Some files => Some (map fst files)
  | None, None => None
  end.

Definition declares_split (split : string) (t : task) : Prop :=
  exists names, declared_splits t = Some names /\ In split names.

(** The mixtures added while loading, with their task lists. *)
Definition mixtures (es : list effect) : list (string * list string * rate) :=
  flat_map (fun e => match e with
                     | MixtureAdd m ts r => [(m, ts, r)]
                     | _ => []
                     end) es.

(** The body of the comprehension over the targets in the multi-reference
    branch of [bleu], named. *)
Definition convert_stream (globals : gset string) (target : pyval) : py pyval :=
  xs <- iterate target ;;
  ys <- comprehension (call_as_text globals) xs ;;
  ret (PyList ys).



(* ================================================================ *)
(** * Name resolution inside [bleu] *)

Lemma tf_unbound : ("tf" ∉ module_globals) ∧ ("tf" ∉ builtins).
Proof.
  split.
  - apply (bool_decide_eq_false_1 ("tf" ∈ module_globals)). vm_compute. reflexivity.
  - apply (bool_decide_eq_false_1 ("tf" ∈ builtins)). vm_compute. reflexivity.
Qed.

Lemma load_global_tf : load_global module_globals "tf" = raise (NameError "tf").
Proof.
  unfold load_global. destruct tf_unbound as [Hm Hb].
  rewrite (decide_False (P := "tf" ∈ module_globals)) by exact Hm.
  rewrite (decide_False (P := "tf" ∈ builtins)) by exact Hb.
  reflexivity.
Qed.

Lemma load_global_builtin (globals : gset string) (name : string) :
  name ∈ builtins -> load_global globals name = ret tt.
Proof.
  intros Hin. unfold load_global.
  destruct (decide (name ∈ globals)); [reflexivity|].
  rewrite decide_True by exact Hin. reflexivity.
Qed.

Lemma isinstance_builtin : "isinstance" ∈ builtins.
Proof. apply (bool_decide_eq_true_1 ("isinstance" ∈ builtins)). vm_compute. reflexivity. Qed.

Lemma list_builtin : "list" ∈ builtins.
Proof. apply (bool_decide_eq_true_1 ("list" ∈ builtins)). vm_compute. reflexivity. Qed.

Lemma load_global_bound (globals : gset string) (name : string) :
  name ∈ globals -> load_global globals name = ret tt.
Proof. intros Hin. unfold load_global. rewrite decide_True by exact Hin. reflexivity. Qed.

Lemma bind_ret {A B} (a : A) (k : A -> py B) (w : world) :
  bind (ret a) k w = k a w.
Proof. reflexivity. Qed.

Lemma bind_raises {A B} (c : py A) (k : A -> py B) (e : exn) (w w' : world) :
  c w = (Raise e, w') -> bind c k w = (Raise e, w').
Proof. intros Hc. unfold bind. rewrite Hc. reflexivity. Qed.

(** A comprehension whose body needs [tf] stops at its first element. *)
Lemma comprehension_as_text_raises (x : pyval) (xs : list pyval) (w : world) :
  comprehension (call_as_text module_globals) (x :: xs) w
  = (Raise (NameError "tf"), w).
Proof.
  cbn [comprehension]. apply bind_raises. unfold call_as_text.
  apply bind_raises. rewrite load_global_tf. reflexivity.
Qed.

Lemma bleu_nonempty_predictions (targets predictions : list pyval) (w : world) :
  predictions <> [] ->
  bleu module_globals targets predictions w = (Raise (NameError "tf"), w).
Proof.
  intros Hne. destruct predictions as [|p ps]; [congruence|].
  unfold bleu. apply bind_raises, comprehension_as_text_raises.
Qed.

Lemma bleu_flat_targets (first : pyval) (rest predictions : list pyval) (w : world) :
  isinstance_list first = false ->
  bleu module_globals (first :: rest) predictions w = (Raise (NameError "tf"), w).
Proof.
  intros Hflat. destruct predictions as [|p ps].
  - unfold bleu. cbn [comprehension].
    rewrite bind_ret, (load_global_builtin _ _ isinstance_builtin), bind_ret.
    cbn [subscript0].
    rewrite bind_ret, (load_global_builtin _ _ list_builtin), bind_ret, Hflat.
    do 2 apply bind_raises.
    exact (comprehension_as_text_raises first rest w).
  - apply bleu_nonempty_predictions. discriminate.
Qed.

(** [bleu] never writes the tokenizer table. *)
Lemma bind_TOKENIZERS {A B} (c : py A) (k : A -> py B) (w : world) :
  TOKENIZERS (snd (c w)) = TOKENIZERS w ->
  (forall a w', TOKENIZERS (snd (k a w')) = TOKENIZERS w') ->
  TOKENIZERS (snd (bind c k w)) = TOKENIZERS w.
Proof.
  intros Hc Hk. unfold bind. destruct (c w) as [[a|e] w'] eqn:E; cbn in *.
  - rewrite Hk. exact Hc.
  - exact Hc.
Qed.

Lemma load_global_TOKENIZERS (globals : gset string) (name : string) (w : world) :
  TOKENIZERS (snd (load_global globals name w)) = TOKENIZERS w.
Proof. unfold load_global. repeat case_decide; reflexivity. Qed.

Lemma comprehension_TOKENIZERS {A B} (body : A -> py B) (xs : list A) :
  (forall x w, TOKENIZERS (snd (body x w)) = TOKENIZERS w) ->
  forall w, TOKENIZERS (snd (comprehension body xs w)) = TOKENIZERS w.
Proof.
  intros Hbody. induction xs as [|x xs IH]; intros w; cbn [comprehension].
  - reflexivity.
  - apply bind_TOKENIZERS; [apply Hbody|]. intros y w1.
    apply bind_TOKENIZERS; [apply IH|]. reflexivity.
Qed.

Lemma call_as_text_TOKENIZERS (globals : gset string) (x : pyval) (w : world) :
  TOKENIZERS (snd (call_as_text globals x w)) = TOKENIZERS w.
Proof.
  unfold call_as_text. apply bind_TOKENIZERS; [apply load_global_TOKENIZERS|].
  reflexivity.
Qed.

Lemma bleu_TOKENIZERS (globals : gset string) (targets predictions : list pyval)
    (w : world) :
  TOKENIZERS (snd (bleu globals targets predictions w)) = TOKENIZERS w.
Proof.
  unfold bleu.
  apply bind_TOKENIZERS;
    [apply comprehension_TOKENIZERS, call_as_text_TOKENIZERS|]. intros ps w1.
  apply bind_TOKENIZERS; [apply load_global_TOKENIZERS|]. intros _ w2.
  apply bind_TOKENIZERS; [destruct targets; reflexivity|]. intros first w3.
  apply bind_TOKENIZERS; [apply load_global_TOKENIZERS|]. intros _ w4.
  apply bind_TOKENIZERS.
  - destruct (isinstance_list first).
    + apply comprehension_TOKENIZERS. intros target w5.
      apply bind_TOKENIZERS; [destruct target; reflexivity|]. intros xs w6.
      apply bind_TOKENIZERS;
        [apply comprehension_TOKENIZERS, call_as_text_TOKENIZERS|].
      reflexivity.
    + apply bind_TOKENIZERS;
        [apply comprehension_TOKENIZERS, call_as_text_TOKENIZERS|].
      reflexivity.
  - intros ts w5. apply bind_TOKENIZERS; [|reflexivity].
    unfold call_corpus_bleu. apply bind_TOKENIZERS;
      [apply load_global_TOKENIZERS|]. reflexivity.
Qed.

(* ================================================================ *)
(** * The effects of [load], projected *)

Lemma flat_map_map {X Y Z} (f : Y -> list Z) (g : X -> Y) (l : list X) :
  flat_map f (map g l) = flat_map (fun x => f (g x)) l.
Proof. induction l as [|x l IH]; cbn; [reflexivity|]. rewrite IH. reflexivity. Qed.

Lemma flat_map_none {X Y} (l : list X) : flat_map (fun _ => @nil Y) l = [].
Proof. induction l as [|x l IH]; cbn; [reflexivity|exact IH]. Qed.

Lemma flat_map_one {X Y} (g : X -> Y) (l : list X) :
  flat_map (fun x => [g x]) l = map g l.
Proof. induction l as [|x l IH]; cbn; [reflexivity|]. rewrite IH. reflexivity. Qed.

Lemma flat_map_nested {X Y Z} (f : Y -> list Z) (g : X -> list Y) (l : list X) :
  flat_map f (flat_map g l) = flat_map (fun x => flat_map f (g x)) l.
Proof.
  induction l as [|x l IH]; cbn; [reflexivity|].
  rewrite flat_map_app, IH. reflexivity.
Qed.

Ltac project_load :=
  unfold load;
  repeat rewrite flat_map_app;
  repeat rewrite flat_map_map;
  repeat rewrite flat_map_nested;
  cbn [flat_map app name mc4_task wiki_task xnli_train_task xnli_task
       xnli_dev_test_task xnli_all_langs_task paws_tfds_task paws_task
       pawsx_dev_test_task pawsx_translate_task pawsx_all_langs_task
       qa_tfds_task tydiqa_train_dev_task tydiqa_dev_task
       squad_train_dev_task xquad_translate_train_dev_task xquad_test_task
       xquad_all_langs_task snow_task];
  repeat rewrite flat_map_none;
  repeat rewrite flat_map_one.

Lemma task_names_load : task_names load = registered_names.
Proof. unfold task_names. project_load. reflexivity. Qed.


Lemma mixture_names_load :
  mixture_names load =
  [ "mc4"; "wiki"; "mc4_wiki"; "xnli_zeroshot"; "pawsx_zeroshot";
    "pawsx_translate"; "tydiqa"; "xquad_zeroshot"; "xquad_translate" ].
Proof. unfold mixture_names. project_load. reflexivity. Qed.

Lemma tokenizer_writes_load : tokenizer_writes load = [("ja", tokenizer_ja)].
Proof. unfold tokenizer_writes. project_load. reflexivity. Qed.

Lemma apply_effects_writes (es : list effect) (T : gmap string (string -> string)) :
  apply_effects es T
  = fold_left (fun T' kf => <[fst kf := snd kf]> T') (tokenizer_writes es) T.
Proof.
  unfold apply_effects, tokenizer_writes. revert T.
  induction es as [|e es IH]; intros T; [reflexivity|].
  destruct e; cbn [fold_left flat_map apply_effect app]; apply IH.
Qed.

Lemma apply_effects_load (T : gmap string (string -> string)) :
  apply_effects load T = <["ja" := tokenizer_ja]> T.
Proof. rewrite apply_effects_writes, tokenizer_writes_load. reflexivity. Qed.

(* ================================================================ *)
(** * Mixtures against the tasks registered before them *)

Lemma constituents_registered_app (es1 es2 : list effect) (seen : list string) :
  constituents_registered seen (es1 ++ es2) <->
  constituents_registered seen es1
  /\ constituents_registered (seen ++ task_names es1) es2.
Proof.
  revert seen. induction es1 as [|e es1 IH]; intros seen.
  - cbn. rewrite app_nil_r. tauto.
  - destruct e as [t|m ts r|k f]; cbn [app constituents_registered].
    + rewrite IH. unfold task_names. cbn [flat_map].
      rewrite <- app_assoc. reflexivity.
    + rewrite IH. unfold task_names. cbn [flat_map app]. tauto.
    + rewrite IH. unfold task_names. cbn [flat_map app]. tauto.
Qed.

Lemma constituents_registered_split (es : list effect) (seen : list string) :
  constituents_registered seen es ->
  forall pre m ts r post,
    es = pre ++ MixtureAdd m ts r :: post ->
    forall t, In t ts -> In t (seen ++ task_names pre).
Proof.
  intros Hok pre m ts r post -> t Ht.
  apply constituents_registered_app in Hok as [_ Hok].
  cbn [constituents_registered] in Hok. destruct Hok as [Hok _].
  apply Hok, Ht.
Qed.

Lemma constituents_registered_tasks {X} (f : X -> task) (l : list X)
    (seen : list string) :
  constituents_registered seen (map (fun x => TaskAdd (f x)) l).
Proof.
  revert seen. induction l as [|x l IH]; intros seen; cbn; [exact I|apply IH].
Qed.

Lemma constituents_registered_task_pairs {X} (f g : X -> task) (l : list X)
    (seen : list string) :
  constituents_registered seen
    (flat_map (fun x => [TaskAdd (f x); TaskAdd (g x)]) l).
Proof.
  revert seen. induction l as [|x l IH]; intros seen; cbn; [exact I|apply IH].
Qed.

Lemma in_pairs_l {X Y} (f g : X -> Y) (l : list X) (y : Y) :
  In y (map f l) -> In y (flat_map (fun x => [f x; g x]) l).
Proof.
  rewrite in_map_iff, in_flat_map. intros [x [<- Hx]].
  exists x. split; [exact Hx|]. left. reflexivity.
Qed.

Lemma in_pairs_r {X Y} (f g : X -> Y) (l : list X) (y : Y) :
  In y (map g l) -> In y (flat_map (fun x => [f x; g x]) l).
Proof.
  rewrite in_map_iff, in_flat_map. intros [x [<- Hx]].
  exists x. split; [exact Hx|]. right. left. reflexivity.
Qed.

Ltac simplify_task_names :=
  unfold task_names;
  repeat rewrite flat_map_app;
  repeat rewrite flat_map_map;
  repeat rewrite flat_map_nested;
  cbn [flat_map app name mc4_task wiki_task xnli_train_task xnli_task
       xnli_dev_test_task xnli_all_langs_task paws_tfds_task paws_task
       pawsx_dev_test_task pawsx_translate_task pawsx_all_langs_task
       qa_tfds_task tydiqa_train_dev_task tydiqa_dev_task
       squad_train_dev_task xquad_translate_train_dev_task xquad_test_task
       xquad_all_langs_task snow_task];
  repeat rewrite flat_map_none;
  repeat rewrite flat_map_one.

Ltac already_registered :=
  let t := fresh "t" in
  let Ht := fresh "Ht" in
  intros t Ht;
  unfold mc4, wiki, xnli_zeroshot, pawsx, pawsx_translate, tydiqa,
         xquad_zeroshot, xquad_translate, xquad_translate_train_dev,
         xquad_test in Ht;
  simplify_task_names;
  repeat first [rewrite in_app_iff in Ht | progress cbn [In] in Ht];
  repeat first [rewrite in_app_iff | progress cbn [In]];
  intuition (auto using in_pairs_l, in_pairs_r).

(** One step of the walk along [load] for each shape of segment. *)
Lemma walk_tasks {X} (f : X -> task) (l : list X) (rest : list effect)
    (seen : list string) :
  constituents_registered
    (seen ++ task_names (map (fun x => TaskAdd (f x)) l)) rest ->
  constituents_registered seen (map (fun x => TaskAdd (f x)) l ++ rest).
Proof.
  intros Hrest. apply constituents_registered_app. split; [|exact Hrest].
  apply constituents_registered_tasks.
Qed.

Lemma walk_task_pairs {X} (f g : X -> task) (l : list X) (rest : list effect)
    (seen : list string) :
  constituents_registered
    (seen ++ task_names (flat_map (fun x => [TaskAdd (f x); TaskAdd (g x)]) l))
    rest ->
  constituents_registered seen
    (flat_map (fun x => [TaskAdd (f x); TaskAdd (g x)]) l ++ rest).
Proof.
  intros Hrest. apply constituents_registered_app. split; [|exact Hrest].
  apply constituents_registered_task_pairs.
Qed.

Lemma walk_task (t : task) (rest : list effect) (seen : list string) :
  constituents_registered (seen ++ [name t]) rest ->
  constituents_registered seen ([TaskAdd t] ++ rest).
Proof. intros Hrest. exact Hrest. Qed.

Lemma walk_mixture (m : string) (ts : list string) (r : rate)
    (rest : list effect) (seen : list string) :
  (forall t, In t ts -> In t seen) ->
  constituents_registered seen rest ->
  constituents_registered seen ([MixtureAdd m ts r] ++ rest).
Proof. intros Hts Hrest. split; assumption. Qed.

Lemma walk_tokenizer (k : string) (f : string -> string)
    (rest : list effect) (seen : list string) :
  constituents_registered seen rest ->
  constituents_registered seen ([TokenizerSet k f] ++ rest).
Proof. intros Hrest. exact Hrest. Qed.

Lemma load_constituents_registered : constituents_registered [] load.
Proof.
  unfold load.
  apply walk_tasks. apply walk_mixture; [already_registered|].
  apply walk_tasks. apply walk_mixture; [already_registered|].
  apply walk_mixture; [already_registered|].
  apply walk_task. apply walk_tasks. apply walk_task.
  apply walk_mixture; [already_registered|].
  apply walk_task. apply walk_task_pairs. apply walk_task.
  apply walk_mixture; [already_registered|].
  apply walk_mixture; [already_registered|].
  apply walk_task. apply walk_tasks.
  apply walk_mixture; [already_registered|].
  apply walk_task. apply walk_tasks. apply walk_tasks. apply walk_task.
  apply walk_mixture; [already_registered|].
  apply walk_mixture; [already_registered|].
  apply walk_tokenizer. exact I.
Qed.

(* ================================================================ *)
(** * A case principle for the registered tasks *)

Lemma registered_task_cases (P : task -> Prop) :
  (forall lang, In lang MC4_LANGS -> P (mc4_task lang)) ->
  (forall lang, In lang WIKI_LANGS -> P (wiki_task lang)) ->
  P xnli_train_task ->
  (forall lang, In lang XNLI_LANGS -> P (xnli_dev_test_task lang)) ->
  P xnli_all_langs_task ->
  P paws_task ->
  (forall lang, In lang PAWSX_LANGS -> P (pawsx_dev_test_task lang)) ->
  (forall lang, In lang PAWSX_LANGS -> P (pawsx_translate_task lang)) ->
  P pawsx_all_langs_task ->
  P tydiqa_train_dev_task ->
  (forall lang, In lang TYDIQA_LANGS -> P (tydiqa_dev_task lang)) ->
  P squad_train_dev_task ->
  (forall lang, In lang XQUAD_LANGS_TRAIN_DEV ->
                P (xquad_translate_train_dev_task lang)) ->
  (forall lang, In lang XQUAD_LANGS_TEST -> P (xquad_test_task lang)) ->
  P xquad_all_langs_task ->
  P snow_task ->
  forall t, In (TaskAdd t) load -> P t.
Proof.
  intros Hmc4 Hwiki Hxt Hxnli Hxa Hpaws Hpd Hpt Hpa Htt Hty Hsq Hxtd Hxq Hxqa
         Hsnow t Hin.
  unfold load in Hin.
  repeat first [rewrite in_app_iff in Hin | progress cbn [In] in Hin].
  repeat match goal with
         | H : _ \/ _ |- _ => destruct H as [H|H]
         | H : In _ (map _ _) |- _ => apply in_map_iff in H as [? [H ?]]
         | H : In _ (flat_map _ _) |- _ =>
             apply in_flat_map in H as [? [? H]]; cbn [In] in H
         | H : False |- _ => destruct H
         | H : TaskAdd _ = TaskAdd _ |- _ => injection H as <-
         | H : _ = TaskAdd _ |- _ => discriminate H
         end; auto.
Qed.

Lemma registered_snow : exists pre, load = pre ++ [TaskAdd snow_task].
Proof.
  unfold load. eexists.
  repeat rewrite app_assoc. reflexivity.
Qed.

(* ================================================================ *)
(** * Names *)

Lemma append_nil_r (s : string) : s +:+ "" = s.
Proof. induction s as [|c s IH]; [reflexivity|]. cbn [String.append]. f_equal. exact IH. Qed.

Lemma append_inj_l (p a b : string) : p +:+ a = p +:+ b -> a = b.
Proof.
  induction p as [|c p IH]; cbn [String.append]; intros E; [exact E|].
  injection E as E. apply IH, E.
Qed.

(** The templates are a fixed prefix followed by the code. *)
Lemma format_prefix (p arg : string) :
  mentions "{" p = false -> format (p +:+ "{}") arg = p +:+ arg.
Proof.
  induction p as [|c p IH]; cbn [mentions String.append format]; intros Hp.
  - apply append_nil_r.
  - apply orb_false_iff in Hp as [Hc Hp].
    apply Ascii.eqb_neq in Hc.
    destruct c as [[] [] [] [] [] [] [] []]; try (rewrite IH by exact Hp; reflexivity).
    congruence.
Qed.

(** Replacing ['-'] by ['_'] loses no information on codes that do not
    contain ['_'] already. *)
Lemma replace_injective (a b : string) :
  mentions "_" a = false -> mentions "_" b = false ->
  replace "-" "_" a = replace "-" "_" b -> a = b.
Proof.
  revert b. induction a as [|c a IH]; intros [|d b]; cbn [mentions replace];
    intros Ha Hb E; try reflexivity; try discriminate E.
  apply orb_false_iff in Ha as [Hc Ha]. apply orb_false_iff in Hb as [Hd Hb].
  injection E as Ecd E. rewrite (IH b Ha Hb E). f_equal.
  apply Ascii.eqb_neq in Hc, Hd.
  destruct (Ascii.eqb_spec c "-") as [->|Hc'];
    destruct (Ascii.eqb_spec d "-") as [->|Hd']; congruence.
Qed.

Lemma NoDup_map_on {X Y} (f : X -> Y) (l : list X) :
  (forall a b, In a l -> In b l -> f a = f b -> a = b) ->
  List.NoDup l -> List.NoDup (map f l).
Proof.
  intros Hinj Hl. induction Hl as [|x l Hx Hl IH]; cbn [map]; constructor.
  - rewrite in_map_iff. intros [y [E Hy]].
    apply Hinj in E; [|right; exact Hy|left; reflexivity]. subst y. contradiction.
  - apply IH. intros a b Ha Hb. apply Hinj; right; assumption.
Qed.

Lemma collision_free_of_injective (langs : list string) (template : string -> string) :
  (forall a b, In a langs -> In b langs -> template a = template b -> a = b) ->
  collision_free langs template.
Proof. intros Hinj a b Ha Hb Hne E. apply Hne, Hinj; assumption. Qed.

Lemma mc4_name_injective (a b : string) :
  mentions "_" a = false -> mentions "_" b = false ->
  mc4_name a = mc4_name b -> a = b.
Proof.
  intros Ha Hb E. unfold mc4_name in E.
  rewrite !(format_prefix "mc4.") in E by reflexivity.
  apply append_inj_l in E. apply replace_injective; assumption.
Qed.

Lemma wiki_name_injective (a b : string) :
  mentions "_" a = false -> mentions "_" b = false ->
  wiki_name a = wiki_name b -> a = b.
Proof.
  intros Ha Hb E. unfold wiki_name in E.
  rewrite !(format_prefix "wiki.") in E by reflexivity.
  apply append_inj_l in E. apply replace_injective; assumption.
Qed.

Lemma format_prefix_injective (p a b : string) :
  mentions "{" p = false ->
  format (p +:+ "{}") a = format (p +:+ "{}") b -> a = b.
Proof.
  intros Hp E. rewrite !format_prefix in E by exact Hp.
  apply append_inj_l in E. exact E.
Qed.

Lemma WIKI_LANGS_no_underscore :
  Forall (fun lang => mentions "_" lang = false) WIKI_LANGS.
Proof. unfold WIKI_LANGS. repeat constructor. Qed.

Lemma NoDup_WIKI_LANGS : List.NoDup WIKI_LANGS.
Proof.
  apply NoDup_ListNoDup. apply (bool_decide_eq_true_1 (NoDup WIKI_LANGS)).
  vm_compute. reflexivity.
Qed.

Lemma NoDup_all_langs_XNLI_LANGS : List.NoDup ("all_langs" :: XNLI_LANGS).
Proof.
  apply NoDup_ListNoDup.
  apply (bool_decide_eq_true_1 (NoDup ("all_langs" :: XNLI_LANGS))).
  vm_compute. reflexivity.
Qed.

Lemma NoDup_TYDIQA_LANGS : List.NoDup TYDIQA_LANGS.
Proof.
  apply NoDup_ListNoDup. apply (bool_decide_eq_true_1 (NoDup TYDIQA_LANGS)).
  vm_compute. reflexivity.
Qed.

Lemma XNLI_LANGS_no_all_langs : ~ In "all_langs" XNLI_LANGS.
Proof. pose proof NoDup_all_langs_XNLI_LANGS as H. inversion H. assumption. Qed.

Lemma NoDup_XNLI_LANGS : List.NoDup XNLI_LANGS.
Proof. pose proof NoDup_all_langs_XNLI_LANGS as H. inversion H. assumption. Qed.

(** Names of different families differ in their fixed part; names of one
    family differ when the codes do. *)
Ltac unfold_names :=
  unfold mc4_name, wiki_name, xnli_dev_test_name, pawsx_dev_test_name,
         pawsx_translate_name, tydiqa_dev_name,
         xquad_translate_train_dev_name, xquad_test_name in *.

Ltac same_name H :=
  unfold_names; cbn [format String.append] in H;
  first [ discriminate H
        | injection H as H; rewrite ?append_nil_r in H; subst; contradiction ].

Ltac no_clash :=
  repeat match goal with
         | H : _ \/ _ |- _ => destruct H as [H|H]
         | H : False |- _ => destruct H
         | H : In _ (map _ _) |- _ => apply in_map_iff in H as [? [H ?]]
         | H : In _ (flat_map _ _) |- _ =>
             apply in_flat_map in H as [? [? H]]; cbn [In] in H
         end;
  try match goal with
      | H1 : _ = ?a, H2 : _ = ?a |- _ =>
          is_var a; rewrite <- H2 in H1; clear H2
      end;
  match goal with
  | H : _ = _ |- _ => same_name H
  end.

Ltac disjoint_from_rest :=
  let a := fresh "a" in
  let Ha := fresh "Ha" in
  let Hrest := fresh "Hrest" in
  intros a Ha Hrest;
  repeat first [rewrite in_app_iff in Hrest | progress cbn [In] in Hrest];
  cbn [In] in Ha;
  no_clash.

Ltac one_name := constructor; [intros []|constructor].

Ltac family prefix D :=
  apply NoDup_map_on;
  [ intros ? ? _ _; apply (format_prefix_injective prefix); reflexivity
  | exact D ].

Lemma NoDup_task_pairs (l : list string) :
  List.NoDup l ->
  List.NoDup (flat_map (fun lang => [pawsx_dev_test_name lang;
                                     pawsx_translate_name lang]) l).
Proof.
  intros Hl. induction Hl as [|x l Hx Hl IH]; cbn [flat_map app]; [constructor|].
  constructor; [|constructor; [|exact IH]].
  - intros Hin. cbn [In] in Hin. no_clash.
  - intros Hin. no_clash.
Qed.

Lemma NoDup_registered_names :
  Forall (fun lang => mentions "_" lang = false) MC4_LANGS ->
  List.NoDup MC4_LANGS ->
  List.NoDup PAWSX_LANGS ->
  List.NoDup XQUAD_LANGS_TRAIN_DEV ->
  List.NoDup XQUAD_LANGS_TEST ->
  ~ In "all_langs" PAWSX_LANGS ->
  ~ In "all_langs" XQUAD_LANGS_TEST ->
  List.NoDup registered_names.
Proof.
  intros Hmc4 Dmc4 Dpawsx Dxtd Dxt Hpawsx Hxt.
  pose proof XNLI_LANGS_no_all_langs as Hxnli.
  rewrite List.Forall_forall in Hmc4.
  pose proof WIKI_LANGS_no_underscore as Hwiki. rewrite List.Forall_forall in Hwiki.
  unfold registered_names.
  apply List.NoDup_app; [| |disjoint_from_rest].
  { apply NoDup_map_on; [|exact Dmc4].
    intros a b Ha Hb. apply mc4_name_injective; auto. }
  apply List.NoDup_app; [| |disjoint_from_rest].
  { apply NoDup_map_on; [|exact NoDup_WIKI_LANGS].
    intros a b Ha Hb. apply wiki_name_injective; auto. }
  apply List.NoDup_app; [one_name| |disjoint_from_rest].
  apply List.NoDup_app;
    [family "xnli_dev_test." NoDup_XNLI_LANGS| |disjoint_from_rest].
  apply List.NoDup_app; [one_name| |disjoint_from_rest].
  apply List.NoDup_app; [one_name| |disjoint_from_rest].
  apply List.NoDup_app;
    [apply NoDup_task_pairs; exact Dpawsx| |disjoint_from_rest].
  apply List.NoDup_app; [one_name| |disjoint_from_rest].
  apply List.NoDup_app; [one_name| |disjoint_from_rest].
  apply List.NoDup_app;
    [family "tydiqa_dev." NoDup_TYDIQA_LANGS| |disjoint_from_rest].
  apply List.NoDup_app; [one_name| |disjoint_from_rest].
  apply List.NoDup_app;
    [family "xquad_translate_train_dev." Dxtd| |disjoint_from_rest].
  apply List.NoDup_app; [family "xquad_test." Dxt| |disjoint_from_rest].
  apply List.NoDup_app; [one_name|one_name|disjoint_from_rest].
Qed.

Lemma collision_free_template (prefix : string) (langs : list string) :
  mentions "{" prefix = false ->
  collision_free langs (format (prefix +:+ "{}")).
Proof.
  intros Hp. apply collision_free_of_injective. intros a b _ _.
  apply format_prefix_injective, Hp.
Qed.

(* ================================================================ *)
(** * The metric function once [tf] is bound

    With a namespace that binds [tf] and a total [as_text], the body does
    what it is written to do: a flat target list becomes the only
    reference stream and one score is computed with the fixed options. *)



(* ================================================================ *)
(** * The exponent of the rate function on doubles *)

Lemma b64_lit_0_3 :
  lit_0_3 (F := spec_float) = S754_finite false 5404319552844595 (-54).
Proof. vm_compute. reflexivity. Qed.

Lemma b64_temperature :
  DEFAULT_TEMPERATURE (F := spec_float)
  = S754_finite false 7505999378950827 (-51).
Proof. vm_compute. reflexivity. Qed.

(** [1.0 / (1.0 / 0.3)] rounds back to [0.3]. *)
Lemma b64_exponent :
  b64_div lit_1_0 DEFAULT_TEMPERATURE = lit_0_3 (F := spec_float).
Proof. vm_compute. reflexivity. Qed.

(* ================================================================ *)
(** * Results *)

(** C1: the default rate function is the framework's rate function at
    the temperature [1.0 / 0.3], hence the count raised to [1/T]; on
    doubles the exponent [1.0 / (1.0 / 0.3)] rounds to the double [0.3]
    exactly, and over the reals it is [3/10], so the weight of a task
    with [n] examples is [n ** 0.3] for every positive [n]. *)
Theorem DEFAULT_MIX_RATE_is_count_to_the_0_3 :
  (forall (libm_pow : Power spec_float) (n : positive),
      DEFAULT_MIX_RATE n
      = libm_pow (b64_of_Z (Zpos n)) (b64_div lit_1_0 DEFAULT_TEMPERATURE)
      /\ DEFAULT_MIX_RATE n = libm_pow (b64_of_Z (Zpos n)) lit_0_3
      /\ lit_0_3 = S754_finite false 5404319552844595 (-54))
  /\ (forall n : positive,
        DEFAULT_MIX_RATE n
        = Rpower (IZR (Zpos n)) (1 / DEFAULT_TEMPERATURE)
        /\ DEFAULT_MIX_RATE n = Rpower (IZR (Zpos n)) (3 / 10))%R.
Proof.
  split.
  - intros libm_pow n. split; [reflexivity|]. split.
    + unfold DEFAULT_MIX_RATE, rate_num_examples.
      change (div lit_1_0 DEFAULT_TEMPERATURE)
        with (b64_div lit_1_0 DEFAULT_TEMPERATURE).
      rewrite b64_exponent. reflexivity.
    + apply b64_lit_0_3.
  - intros n. split; [reflexivity|].
    unfold DEFAULT_MIX_RATE, rate_num_examples, DEFAULT_TEMPERATURE,
           lit_1_0, lit_0_3, pow, Power_R.
    cbn [of_int div Arith_R]. f_equal. field.
Qed.

(** C7: for a positive temperature the rate function is non-decreasing
    in the example count (real-valued weights, positive counts). *)
Theorem rate_num_examples_monotone (T : R) (m n : positive) :
  (0 < T)%R -> (m <= n)%positive ->
  (rate_num_examples m T <= rate_num_examples n T)%R.
Proof.
  intros HT Hmn. unfold rate_num_examples, pow, Power_R, lit_1_0.
  cbn [of_int div Arith_R].
  apply Rle_Rpower_l.
  - apply Rlt_le, Rdiv_lt_0_compat; [lra|exact HT].
  - split.
    + apply IZR_lt. lia.
    + apply IZR_le. lia.
Qed.

(** C9: [tf] is bound neither by the module (which imports
    [tensorflow_datasets] as [tfds]) nor by the builtins, so every call
    of [bleu] with a non-empty prediction list raises [NameError] at the
    first prediction; the state is the one the call started with, no
    score has been computed. *)
Theorem bleu_raises_NameError :
  ("tf" ∉ module_globals) /\ ("tf" ∉ builtins) /\ ("tfds" ∈ module_globals)
  /\ forall (targets predictions : list pyval) (w : world),
       predictions <> [] ->
       bleu module_globals targets predictions w = (Raise (NameError "tf"), w).
Proof.
  split; [apply tf_unbound|]. split; [apply tf_unbound|]. split.
  - apply (bool_decide_eq_true_1 ("tfds" ∈ module_globals)).
    vm_compute. reflexivity.
  - apply bleu_nonempty_predictions.
Qed.

(** C2: on predictions equal to their references the module's [bleu]
    raises [NameError] instead of returning a metric, and so it does on
    a mismatched pair. *)
Theorem bleu_exact_match_raises (x : pyval) (xs : list pyval) (w : world) :
  bleu module_globals (x :: xs) (x :: xs) w = (Raise (NameError "tf"), w)
  /\ bleu module_globals [PyStr "a b c d"] [PyStr "a b c e"] w
     = (Raise (NameError "tf"), w).
Proof. split; apply bleu_nonempty_predictions; discriminate. Qed.

(** C3: on a target list whose first element is a string (text or
    bytes) the module's [bleu] raises [NameError], whatever the
    predictions; nothing is wrapped and nothing is scored. *)
Theorem bleu_single_reference_raises (rest predictions : list pyval) (w : world) :
  (forall s : string,
      bleu module_globals (PyStr s :: rest) predictions w
      = (Raise (NameError "tf"), w))
  /\ (forall b : list Byte.byte,
        bleu module_globals (PyBytes b :: rest) predictions w
        = (Raise (NameError "tf"), w)).
Proof. split; intros; apply bleu_flat_targets; reflexivity. Qed.

(** C6: loading the module writes the tokenizer table once, at key
    ["ja"], with the sumeval-based tokenizer; every other key keeps its
    entry; a call of [bleu], in any namespace and on any arguments,
    leaves the table as it found it. *)
Theorem tokenizer_table_written_once :
  tokenizer_writes load = [("ja", tokenizer_ja)]
  /\ (forall T : gmap string (string -> string),
        apply_effects load T = <["ja" := tokenizer_ja]> T)
  /\ (forall (T : gmap string (string -> string)) (k : string),
        k <> "ja" -> apply_effects load T !! k = T !! k)
  /\ (forall (globals : gset string) (targets predictions : list pyval)
             (w : world),
        TOKENIZERS (snd (bleu globals targets predictions w)) = TOKENIZERS w).
Proof.
  split; [apply tokenizer_writes_load|]. split; [apply apply_effects_load|].
  split; [|apply bleu_TOKENIZERS].
  intros T k Hk. rewrite apply_effects_load.
  apply lookup_insert_ne. congruence.
Qed.

(** C8: the task [snow] is registered, it is the only task of that name,
    it is a text-line task over the three local files
    [./snow_t15_23_{train,dev,test}.tsv] for the splits train,
    validation and test, and its only text preprocessor parses
    tab-separated lines into the fields [inputs], [targets]. *)
Theorem snow_reads_three_tsv_files :
  (exists pre, load = pre ++ [TaskAdd snow_task])
  /\ (forall t, In (TaskAdd t) load -> name t = "snow" -> t = snow_task)
  /\ cls snow_task = Some TextLineTask
  /\ split_to_filepattern snow_task
     = Some [ ("train", "./snow_t15_23_train.tsv");
              ("validation", "./snow_t15_23_dev.tsv");
              ("test", "./snow_t15_23_test.tsv") ]
  /\ text_preprocessor snow_task = Many [parse_tsv ["inputs"; "targets"]].
Proof.
  split; [apply registered_snow|]. split; [|repeat split].
  apply (registered_task_cases (fun t => name t = "snow" -> t = snow_task));
    try (intros lang _ E); try (intros E);
    try reflexivity;
    cbn [name mc4_task wiki_task xnli_train_task xnli_task
         xnli_dev_test_task xnli_all_langs_task paws_tfds_task paws_task
         pawsx_dev_test_task pawsx_translate_task pawsx_all_langs_task
         qa_tfds_task tydiqa_train_dev_task tydiqa_dev_task
         squad_train_dev_task xquad_translate_train_dev_task xquad_test_task
         xquad_all_langs_task] in E;
    unfold_names; cbn [format String.append] in E; discriminate E.
Qed.

(** C4: within each language list, different codes receive different
    task names (for the two families whose template normalises ['-'] to
    ['_'] as well as for the others), and the names passed to
    [TaskRegistry.add] during one load are pairwise different.  The
    tables that come from outside the file are assumed free of
    repetitions, of the code [all_langs] and, for mC4, of ['_']. *)
Theorem task_names_collision_free :
  Forall (fun lang => mentions "_" lang = false) MC4_LANGS ->
  List.NoDup MC4_LANGS ->
  List.NoDup PAWSX_LANGS ->
  List.NoDup XQUAD_LANGS_TRAIN_DEV ->
  List.NoDup XQUAD_LANGS_TEST ->
  ~ In "all_langs" PAWSX_LANGS ->
  ~ In "all_langs" XQUAD_LANGS_TEST ->
  collision_free MC4_LANGS mc4_name
  /\ collision_free WIKI_LANGS wiki_name
  /\ collision_free XNLI_LANGS xnli_dev_test_name
  /\ collision_free PAWSX_LANGS pawsx_dev_test_name
  /\ collision_free PAWSX_LANGS pawsx_translate_name
  /\ collision_free TYDIQA_LANGS tydiqa_dev_name
  /\ collision_free XQUAD_LANGS_TRAIN_DEV xquad_translate_train_dev_name
  /\ collision_free XQUAD_LANGS_TEST xquad_test_name
  /\ List.NoDup (task_names load).
Proof.
  intros Hmc4 Dmc4 Dpawsx Dxtd Dxt Hpawsx Hxt.
  split.
  { apply collision_free_of_injective. intros a b Ha Hb.
    rewrite List.Forall_forall in Hmc4.
    apply mc4_name_injective; auto. }
  split.
  { apply collision_free_of_injective. intros a b Ha Hb.
    pose proof WIKI_LANGS_no_underscore as Hwiki.
    rewrite List.Forall_forall in Hwiki.
    apply wiki_name_injective; auto. }
  split; [apply (collision_free_template "xnli_dev_test."); reflexivity|].
  split; [apply (collision_free_template "pawsx_dev_test."); reflexivity|].
  split; [apply (collision_free_template "pawsx_translate."); reflexivity|].
  split; [apply (collision_free_template "tydiqa_dev."); reflexivity|].
  split; [apply (collision_free_template "xquad_translate_train_dev.");
          reflexivity|].
  split; [apply (collision_free_template "xquad_test."); reflexivity|].
  rewrite task_names_load. apply NoDup_registered_names; assumption.
Qed.

(** C5: the module registers the nine mixtures mc4, wiki, mc4_wiki,
    xnli_zeroshot, pawsx_zeroshot, pawsx_translate, tydiqa,
    xquad_zeroshot and xquad_translate, and wherever a mixture is added
    during the load, each task name of its list has been passed to
    [TaskRegistry.add] by an earlier statement. *)
Theorem mixture_constituents_registered_earlier :
  mixture_names load
  = [ "mc4"; "wiki"; "mc4_wiki"; "xnli_zeroshot"; "pawsx_zeroshot";
      "pawsx_translate"; "tydiqa"; "xquad_zeroshot"; "xquad_translate" ]
  /\ forall (pre post : list effect) (m : string) (ts : list string) (r : rate),
       load = pre ++ MixtureAdd m ts r :: post ->
       forall t, In t ts -> In t (task_names pre).
Proof.
  split; [apply mixture_names_load|].
  intros pre post m ts r Hload t Ht.
  apply (constituents_registered_split load [] load_constituents_registered
           pre m ts r post Hload t Ht).
Qed.

(** C10: every registered task carries the one dictionary
    [DEFAULT_OUTPUT_FEATURES]; its entries "inputs" and "targets" are
    features over the same SentencePiece vocabulary object with
    [add_eos] set; "inputs" is marked not required, "targets" leaves
    [required] to the framework's default, which makes it required. *)
Theorem tasks_share_DEFAULT_OUTPUT_FEATURES :
  Feature_required_default = true ->
  (forall t, In (TaskAdd t) load -> output_features t = DEFAULT_OUTPUT_FEATURES)
  /\ (exists inputs targets,
        module_store !! DEFAULT_OUTPUT_FEATURES
        = Some (Dict [("inputs", inputs); ("targets", targets)]))
  /\ getitem module_store DEFAULT_OUTPUT_FEATURES "inputs"
     = Some (Feature DEFAULT_VOCAB true false)
  /\ getitem module_store DEFAULT_OUTPUT_FEATURES "targets"
     = Some (Feature DEFAULT_VOCAB true true)
  /\ module_store !! DEFAULT_VOCAB
     = Some (SentencePieceVocabulary DEFAULT_SPM_PATH).
Proof.
  intros Hdefault. split.
  { apply (registered_task_cases
             (fun t => output_features t = DEFAULT_OUTPUT_FEATURES));
      intros; reflexivity. }
  split; [eexists _, _; reflexivity|].
  split; [reflexivity|]. split; [|reflexivity].
  unfold getitem, module_store, module_objects. rewrite Hdefault. reflexivity.
Qed.

(* ================================================================== *)
(** * Further results: the metric function *)

(** Everything [bleu] does before the call of [corpus_bleu] leaves the
    state alone. *)
Lemma bind_world {A B} (c : py A) (k : A -> py B) (w : world) :
  snd (c w) = w -> (forall a, snd (k a w) = w) -> snd (bind c k w) = w.
Proof.
  intros Hc Hk. unfold bind. destruct (c w) as [[a|e] w'] eqn:E; cbn in *.
  - subst w'. apply Hk.
  - exact Hc.
Qed.

Lemma load_global_world (globals : gset string) (name : string) (w : world) :
  snd (load_global globals name w) = w.
Proof. unfold load_global. repeat case_decide; reflexivity. Qed.

Lemma call_as_text_world (globals : gset string) (x : pyval) (w : world) :
  snd (call_as_text globals x w) = w.
Proof.
  unfold call_as_text. apply bind_world; [apply load_global_world|].
  reflexivity.
Qed.

Lemma comprehension_world {A B} (body : A -> py B) (xs : list A) (w : world) :
  (forall x, snd (body x w) = w) -> snd (comprehension body xs w) = w.
Proof.
  intros Hbody. induction xs as [|x xs IH]; cbn [comprehension]; [reflexivity|].
  apply bind_world; [apply Hbody|]. intros y.
  apply bind_world; [exact IH|]. reflexivity.
Qed.

Lemma references_world (globals : gset string) (first : pyval)
    (targets : list pyval) (w : world) :
  snd ((if isinstance_list first then
          comprehension
            (fun target =>
               xs <- iterate target ;;
               ys <- comprehension (call_as_text globals) xs ;;
               ret (PyList ys))
            targets
        else
          ys <- comprehension (call_as_text globals) targets ;;
          ret [PyList ys]) w) = w.
Proof.
  destruct (isinstance_list first).
  - apply comprehension_world. intros target.
    apply bind_world; [destruct target; reflexivity|]. intros xs.
    apply bind_world; [|reflexivity].
    apply comprehension_world. intros x. apply call_as_text_world.
  - apply bind_world; [|reflexivity].
    apply comprehension_world. intros x. apply call_as_text_world.
Qed.

(** A step that leaves the state alone either raises there or hands a
    value to the rest of the body. *)
Lemma bind_cases {A B} (c : py A) (k : A -> py B) (w : world) :
  snd (c w) = w ->
  (exists e, bind c k w = (Raise e, w)) \/ (exists a, bind c k w = k a w).
Proof.
  intros Hc. unfold bind. destruct (c w) as [[a|e] w'] eqn:E; cbn in Hc; subst w'.
  - right. exists a. reflexivity.
  - left. exists e. reflexivity.
Qed.

Lemma score_step (globals : gset string) (sys refs : list pyval) (w : world) :
  (exists e,
      (score <- call_corpus_bleu globals sys refs bleu_corpus_options ;;
       ret ({[ "bleu" := score ]} : gmap string spec_float)) w = (Raise e, w))
  \/ (score <- call_corpus_bleu globals sys refs bleu_corpus_options ;;
       ret ({[ "bleu" := score ]} : gmap string spec_float)) w
     = (metric_of (corpus_bleu sys refs bleu_corpus_options (TOKENIZERS w)),
        scored_once w).
Proof.
  unfold call_corpus_bleu, load_global.
  destruct (decide ("corpus_bleu" ∈ globals));
    [|destruct (decide ("corpus_bleu" ∈ builtins))].
  - right. unfold bind, ret, metric_of, scored_once.
    destruct (corpus_bleu sys refs bleu_corpus_options (TOKENIZERS w)); reflexivity.
  - right. unfold bind, ret, metric_of, scored_once.
    destruct (corpus_bleu sys refs bleu_corpus_options (TOKENIZERS w)); reflexivity.
  - left. exists (NameError "corpus_bleu"). reflexivity.
Qed.

(** X1: a call of [bleu], in any namespace and on any arguments, either
    raises with the state untouched or calls [corpus_bleu] exactly once,
    with the fixed options and the current tokenizer table; when it
    returns, the result is the one-entry dictionary that maps "bleu" to
    the score [corpus_bleu] gave, and an exception of [corpus_bleu] is
    passed on. *)
Theorem bleu_scores_at_most_once (globals : gset string)
    (targets predictions : list pyval) (w : world) :
  (exists e, bleu globals targets predictions w = (Raise e, w))
  \/ (exists sys refs,
        bleu globals targets predictions w
        = (metric_of (corpus_bleu sys refs bleu_corpus_options (TOKENIZERS w)),
           scored_once w)).
Proof.
  unfold bleu.
  match goal with
  | |- (exists e, bind ?c ?k w = _) \/ _ =>
      destruct (bind_cases c k w) as [Hraise|[sys E]];
        [apply comprehension_world; intros x; apply call_as_text_world
        |left; exact Hraise|rewrite E; clear E]
  end.
  match goal with
  | |- (exists e, bind ?c ?k w = _) \/ _ =>
      destruct (bind_cases c k w) as [Hraise|[u E]];
        [apply load_global_world|left; exact Hraise|rewrite E; clear E]
  end.
  match goal with
  | |- (exists e, bind ?c ?k w = _) \/ _ =>
      destruct (bind_cases c k w) as [Hraise|[first E]];
        [destruct targets; reflexivity|left; exact Hraise|rewrite E; clear E]
  end.
  match goal with
  | |- (exists e, bind ?c ?k w = _) \/ _ =>
      destruct (bind_cases c k w) as [Hraise|[u' E]];
        [apply load_global_world|left; exact Hraise|rewrite E; clear E]
  end.
  match goal with
  | |- (exists e, bind ?c ?k w = _) \/ _ =>
      destruct (bind_cases c k w) as [Hraise|[refs E]];
        [apply references_world|left; exact Hraise|rewrite E; clear E]
  end.
  destruct (score_step globals sys refs w) as [Hraise|Hscore].
  - left. exact Hraise.
  - right. exists sys, refs. exact Hscore.
Qed.

Lemma bind_returns {A B} (c : py A) (k : A -> py B) (a : A) (w w' : world) :
  c w = (Return a, w') -> bind c k w = k a w'.
Proof. intros Hc. unfold bind. rewrite Hc. reflexivity. Qed.

Lemma corpus_bleu_bound : "corpus_bleu" ∈ module_globals.
Proof.
  apply (bool_decide_eq_true_1 ("corpus_bleu" ∈ module_globals)).
  vm_compute. reflexivity.
Qed.

Lemma score_step_bound (globals : gset string) (sys refs : list pyval) (w : world) :
  "corpus_bleu" ∈ globals ->
  (score <- call_corpus_bleu globals sys refs bleu_corpus_options ;;
   ret ({[ "bleu" := score ]} : gmap string spec_float)) w
  = (metric_of (corpus_bleu sys refs bleu_corpus_options (TOKENIZERS w)),
     scored_once w).
Proof.
  intros Hb. unfold call_corpus_bleu. rewrite (load_global_bound _ _ Hb).
  unfold metric_of, scored_once, bind, ret.
  destruct (corpus_bleu sys refs bleu_corpus_options (TOKENIZERS w)); reflexivity.
Qed.

(** Streams with nothing to iterate are converted without a look at [tf]. *)
Lemma convert_empty_streams (globals : gset string) (targets : list pyval)
    (w : world) :
  forallb iterates_empty targets = true ->
  comprehension (convert_stream globals) targets w
  = (Return (map (fun _ => PyList []) targets), w).
Proof.
  induction targets as [|target targets IH]; intros Hall; [reflexivity|].
  cbn [forallb] in Hall. apply andb_true_iff in Hall as [Hempty Hall].
  cbn [comprehension map].
  assert (Hhead : convert_stream globals target w = (Return (PyList []), w)).
  { destruct target as [[|c s]|[|b bs]|z|[|x xs]]; try discriminate Hempty;
      reflexivity. }
  rewrite (bind_returns _ _ _ _ _ Hhead).
  rewrite (bind_returns _ _ _ _ _ (IH Hall)). reflexivity.
Qed.

(** In the module's namespace the first stream with an element stops the
    conversion. *)
Lemma convert_stream_raises (target : pyval) (w : world) :
  iterates_empty target = false ->
  exists e, convert_stream module_globals target w = (Raise e, w).
Proof.
  intros Hne. destruct target as [[|c s]|[|b bs]|z|[|x xs]];
    try discriminate Hne.
  - exists (NameError "tf"). unfold convert_stream. cbn [iterate].
    rewrite bind_ret. apply bind_raises.
    cbn [list_ascii_of_string map]. apply comprehension_as_text_raises.
  - exists (NameError "tf"). unfold convert_stream. cbn [iterate map].
    rewrite bind_ret. apply bind_raises. apply comprehension_as_text_raises.
  - exists TypeError. reflexivity.
  - exists (NameError "tf"). unfold convert_stream. cbn [iterate].
    rewrite bind_ret. apply bind_raises. apply comprehension_as_text_raises.
Qed.

Lemma convert_streams_raise (targets : list pyval) (w : world) :
  forallb iterates_empty targets = false ->
  exists e, comprehension (convert_stream module_globals) targets w = (Raise e, w).
Proof.
  induction targets as [|target targets IH]; intros Hsome; [discriminate Hsome|].
  cbn [forallb] in Hsome. cbn [comprehension].
  destruct (iterates_empty target) eqn:Hhead.
  - cbn [andb] in Hsome. destruct (IH Hsome) as [e He]. exists e.
    assert (Hret : convert_stream module_globals target w = (Return (PyList []), w)).
    { destruct target as [[|c s]|[|b bs]|z|[|x xs]]; try discriminate Hhead;
        reflexivity. }
    rewrite (bind_returns _ _ _ _ _ Hret). apply bind_raises. exact He.
  - destruct (convert_stream_raises target w Hhead) as [e He]. exists e.
    apply bind_raises. exact He.
Qed.

(** X2: the module as written can score nothing but the empty corpus.
    With no prediction and only empty reference streams (the first one a
    list) no element needs [tf], and [corpus_bleu] is called on an empty
    hypothesis stream and empty reference streams; on all other arguments
    [bleu] raises and leaves the state untouched. *)
Theorem module_bleu_scores_only_the_empty_corpus
    (targets predictions : list pyval) (w : world) :
  (nothing_to_convert targets predictions = true ->
   bleu module_globals targets predictions w
   = (metric_of (corpus_bleu [] (map (fun _ => PyList []) targets)
                             bleu_corpus_options (TOKENIZERS w)),
      scored_once w))
  /\ (nothing_to_convert targets predictions = false ->
      exists e, bleu module_globals targets predictions w = (Raise e, w)).
Proof.
  destruct predictions as [|p ps].
  2:{ split; [discriminate|]. intros _. exists (NameError "tf").
      apply bleu_nonempty_predictions. discriminate. }
  destruct targets as [|first rest].
  { split; [discriminate|]. intros _. exists IndexError.
    unfold bleu. cbn [comprehension].
    rewrite bind_ret, (load_global_builtin _ _ isinstance_builtin), bind_ret.
    reflexivity. }
  destruct (isinstance_list first) eqn:Hlist.
  2:{ split.
      - destruct first as [s|b|z|l]; [discriminate..|discriminate Hlist].
      - intros _. exists (NameError "tf"). apply bleu_flat_targets, Hlist. }
  assert (Hstep : forall k : list pyval -> py (gmap string spec_float),
            bleu module_globals (first :: rest) [] w
            = bind (comprehension (convert_stream module_globals) (first :: rest))
                   (fun refs =>
                      score <- call_corpus_bleu module_globals [] refs
                                 bleu_corpus_options ;;
                      ret ({[ "bleu" := score ]} : gmap string spec_float)) w).
  { intros _. unfold bleu. cbn [comprehension].
    rewrite bind_ret, (load_global_builtin _ _ isinstance_builtin), bind_ret.
    cbn [subscript0].
    rewrite bind_ret, (load_global_builtin _ _ list_builtin), bind_ret, Hlist.
    reflexivity. }
  specialize (Hstep (fun _ => ret ∅)). rewrite Hstep. clear Hstep.
  split.
  - intros Hnothing.
    assert (Hall : forallb iterates_empty (first :: rest) = true).
    { destruct first as [s|b|z|[|x xs]]; try discriminate Hnothing.
      exact Hnothing. }
    rewrite (bind_returns _ _ _ _ _ (convert_empty_streams _ _ w Hall)).
    apply score_step_bound, corpus_bleu_bound.
  - intros Hsome.
    assert (Hnot : forallb iterates_empty (first :: rest) = false).
    { destruct first as [s|b|z|[|x xs]]; try discriminate Hlist;
        [exact Hsome|reflexivity]. }
    destruct (convert_streams_raise _ w Hnot) as [e He]. exists e.
    apply bind_raises. exact He.
Qed.




Lemma comprehension_as_text_stops (globals : gset string)
    (done : list pyval) (x : pyval) (rest : list pyval) (e : exn) (w : world) :
  "tf" ∈ globals ->
  Forall (fun y => exists v, as_text y = Return v) done ->
  as_text x = Raise e ->
  comprehension (call_as_text globals) (done ++ x :: rest) w = (Raise e, w).
Proof.
  intros Htf Hdone Hx. induction Hdone as [|y done [v Hy] Hdone IH].
  - cbn [app comprehension]. apply bind_raises. unfold call_as_text.
    rewrite (load_global_bound _ _ Htf), bind_ret. unfold lift. rewrite Hx.
    reflexivity.
  - cbn [app comprehension].
    assert (Hhead : call_as_text globals y w = (Return v, w)).
    { unfold call_as_text. rewrite (load_global_bound _ _ Htf), bind_ret.
      unfold lift. rewrite Hy. reflexivity. }
    rewrite (bind_returns _ _ _ _ _ Hhead). apply bind_raises. exact IH.
Qed.

(** X5: an exception of [as_text] on a prediction ends the call: when
    [tf] is bound and [as_text] converts the predictions before [x] but
    raises on [x], [bleu] raises the same exception, whatever the targets
    and the later predictions are, and computes no score. *)
Theorem bleu_passes_on_as_text_exception (globals : gset string)
    (targets done : list pyval) (x : pyval) (rest : list pyval) (e : exn)
    (w : world) :
  "tf" ∈ globals ->
  Forall (fun y => exists v, as_text y = Return v) done ->
  as_text x = Raise e ->
  bleu globals targets (done ++ x :: rest) w = (Raise e, w).
Proof.
  intros Htf Hdone Hx. unfold bleu. apply bind_raises.
  apply comprehension_as_text_stops; assumption.
Qed.

(* ================================================================== *)
(** * Further results: the tokenizer table after a load *)

(** X6: whatever the tokenizer table held, after a load its entry "ja"
    is the module's tokenizer (an earlier entry at that key is replaced),
    which is the entry the option [tokenize] of [bleu] names; the keys are
    the old ones and "ja"; loading a second time changes nothing. *)
Theorem load_installs_ja_tokenizer (T : gmap string (string -> string)) :
  apply_effects load T !! "ja" = Some tokenizer_ja
  /\ apply_effects load T !! tokenize bleu_corpus_options = Some tokenizer_ja
  /\ dom (apply_effects load T) = {["ja"]} ∪ dom T
  /\ apply_effects load (apply_effects load T) = apply_effects load T.
Proof.
  rewrite !apply_effects_load. cbn [tokenize bleu_corpus_options].
  split; [apply lookup_insert_eq|]. split; [apply lookup_insert_eq|].
  split; [apply dom_insert_L|]. apply insert_insert_eq.
Qed.

(* ================================================================== *)
(** * Further results: names and mixtures *)

Lemma mixtures_load :
  mixtures load
  = [ ("mc4", mc4, rate_mix); ("wiki", wiki, rate_mix);
      ("mc4_wiki", mc4 ++ wiki, rate_mix);
      ("xnli_zeroshot", xnli_zeroshot, rate_1_0);
      ("pawsx_zeroshot", pawsx, rate_1_0);
      ("pawsx_translate", pawsx_translate, rate_1_0);
      ("tydiqa", tydiqa, rate_1_0);
      ("xquad_zeroshot", xquad_zeroshot, rate_1_0);
      ("xquad_translate", xquad_translate, rate_1_0) ].
Proof. unfold mixtures. project_load. reflexivity. Qed.

Ltac split_in H :=
  repeat first [rewrite in_app_iff in H | progress cbn [In] in H].

(** X7: no mixture is named like a task, whatever the language tables
    are, and the nine mixture names differ from each other; a lookup by
    name over both registries is unambiguous. *)
Theorem mixture_names_are_not_task_names :
  List.NoDup (mixture_names load)
  /\ forall m, In m (mixture_names load) -> ~ In m (task_names load).
Proof.
  rewrite mixture_names_load, task_names_load. split.
  - apply NoDup_ListNoDup.
    apply (bool_decide_eq_true_1
             (NoDup [ "mc4"; "wiki"; "mc4_wiki"; "xnli_zeroshot";
                      "pawsx_zeroshot"; "pawsx_translate"; "tydiqa";
                      "xquad_zeroshot"; "xquad_translate" ])).
    vm_compute. reflexivity.
  - intros m Hm Ht. unfold registered_names in Ht.
    split_in Ht. cbn [In] in Hm.
    repeat match goal with
           | H : _ \/ _ |- _ => destruct H as [H|H]
           | H : False |- _ => destruct H
           | H : In _ (map _ _) |- _ => apply in_map_iff in H as [? [H ?]]
           | H : In _ (flat_map _ _) |- _ =>
               apply in_flat_map in H as [? [? H]]; cbn [In] in H
           end;
      subst m; unfold_names;
      match goal with
      | H : _ = _ |- _ => cbn [format String.append] in H; discriminate H
      end.
Qed.

Ltac in_mixture m ts r :=
  exists m, ts, r; split;
  [ rewrite mixtures_load; cbn [In]; tauto
  | unfold mc4, wiki, xnli_zeroshot, pawsx, pawsx_translate, tydiqa,
           xquad_zeroshot, xquad_translate, xquad_translate_train_dev,
           xquad_test;
    repeat first [rewrite in_app_iff | progress cbn [In]];
    auto 8 using in_map ].

Ltac some_mixture :=
  first [ solve [in_mixture "mc4" mc4 rate_mix]
        | solve [in_mixture "wiki" wiki rate_mix]
        | solve [in_mixture "xnli_zeroshot" xnli_zeroshot rate_1_0]
        | solve [in_mixture "pawsx_zeroshot" pawsx rate_1_0]
        | solve [in_mixture "pawsx_translate" pawsx_translate rate_1_0]
        | solve [in_mixture "tydiqa" tydiqa rate_1_0]
        | solve [in_mixture "xquad_zeroshot" xquad_zeroshot rate_1_0]
        | solve [in_mixture "xquad_translate" xquad_translate rate_1_0] ].

(** X8: every registered task except [snow] is a constituent of at least
    one mixture, and [snow] is a constituent of none, whatever the
    language tables are. *)
Theorem mixtures_cover_all_tasks_but_snow :
  (forall t, In t (task_names load) -> t <> "snow" ->
             exists m ts r, In (m, ts, r) (mixtures load) /\ In t ts)
  /\ (forall m ts r, In (m, ts, r) (mixtures load) -> ~ In "snow" ts).
Proof.
  split.
  - intros t Ht Hsnow. rewrite task_names_load in Ht.
    unfold registered_names in Ht. split_in Ht.
    repeat match goal with
           | H : _ \/ _ |- _ => destruct H as [H|H]
           | H : False |- _ => destruct H
           | H : In _ (map _ _) |- _ => apply in_map_iff in H as [? [H ?]]
           | H : In _ (flat_map _ _) |- _ =>
               apply in_flat_map in H as [? [? H]]; cbn [In] in H
           end;
      subst t; try congruence; some_mixture.
  - intros m ts r Hm Hin. rewrite mixtures_load in Hm. cbn [In] in Hm.
    repeat match goal with
           | H : _ \/ _ |- _ => destruct H as [H|H]
           | H : False |- _ => destruct H
           | H : (_, _, _) = (_, _, _) |- _ => injection H as <- <- <-
           end;
      unfold mc4, wiki, xnli_zeroshot, pawsx, pawsx_translate, tydiqa,
             xquad_zeroshot, xquad_translate, xquad_translate_train_dev,
             xquad_test in Hin;
      split_in Hin;
      repeat match goal with
             | H : _ \/ _ |- _ => destruct H as [H|H]
             | H : False |- _ => destruct H
             | H : In _ (map _ _) |- _ => apply in_map_iff in H as [? [H ?]]
             end;
      unfold_names;
      match goal with
      | H : _ = "snow" |- _ => cbn [format String.append] in H; discriminate H
      end.
Qed.

Ltac unfold_tasks H :=
  cbn [name splits split_to_filepattern mc4_task wiki_task xnli_train_task
       xnli_task xnli_dev_test_task xnli_all_langs_task paws_tfds_task
       paws_task pawsx_dev_test_task pawsx_translate_task
       pawsx_all_langs_task qa_tfds_task tydiqa_train_dev_task
       tydiqa_dev_task squad_train_dev_task xquad_translate_train_dev_task
       xquad_test_task xquad_all_langs_task snow_task] in H.

(** Either the task states no train split, or its name is in none of the
    lists at hand. *)
Ltac no_train_or_elsewhere Hin Hsplit :=
  first
    [ (* the registration states no train split *)
      solve [ destruct Hsplit as [names [E Hn]];
              unfold declared_splits in E; unfold_tasks E;
              first [ discriminate E
                    | injection E as <-; cbn [map fst In] in Hn;
                      intuition discriminate ] ]
    | (* the name is not in the mixture *)
      solve [ unfold_tasks Hin;
              unfold xnli_zeroshot, pawsx, xquad_zeroshot, xquad_test in Hin;
              split_in Hin;
              repeat match goal with
                     | H : _ \/ _ |- _ => destruct H as [H|H]
                     | H : False |- _ => destruct H
                     | H : In _ (map _ _) |- _ =>
                         apply in_map_iff in H as [? [H ?]]
                     end;
              unfold_names;
              match goal with
              | H : _ = _ |- _ =>
                  cbn [format String.append] in H; discriminate H
              end ] ].

(** X9: the zero-shot mixtures train on the English data only.  Among
    the registered tasks that [xnli_zeroshot] lists, the only one that
    states a train split is [xnli_train]; for [pawsx_zeroshot] it is
    [paws], for [xquad_zeroshot] it is [squad_train_dev]. *)
Theorem zeroshot_mixtures_train_on_english_only (t : task) :
  In (TaskAdd t) load ->
  declares_split "train" t ->
  (In (name t) xnli_zeroshot -> name t = "xnli_train")
  /\ (In (name t) pawsx -> name t = "paws")
  /\ (In (name t) xquad_zeroshot -> name t = "squad_train_dev").
Proof.
  intros Hreg. revert t Hreg.
  apply (registered_task_cases
           (fun t => declares_split "train" t ->
                     (In (name t) xnli_zeroshot -> name t = "xnli_train")
                     /\ (In (name t) pawsx -> name t = "paws")
                     /\ (In (name t) xquad_zeroshot ->
                         name t = "squad_train_dev")));
    try (intros lang Hlang); intros Hsplit;
    (split; [|split]); intros Hin;
    first [ reflexivity | exfalso; no_train_or_elsewhere Hin Hsplit ].
Qed.

(* ================================================================== *)
(** * Further results: what every registered task looks like *)

(** X10: every registered task is one of two kinds.  A task without
    metric is a pretraining task: it is a TFDS task that rekeys the text
    to "targets", corrupts spans and has no postprocessor.  Every other
    task has exactly one metric and no token preprocessor; [squad] goes
    with the [xquad] preprocessor and the [qa] postprocessor, [bleu] is
    used by [snow] alone. *)
Theorem registered_task_pipeline (t : task) :
  In (TaskAdd t) load ->
  match metric_fns t with
  | [] => cls t = Some TfdsTask
          /\ (text_preprocessor t = One rekey_text
              \/ text_preprocessor t = Many [rekey_text])
          /\ token_preprocessor t = Some span_corruption
          /\ postprocess_fn t = None
  | [accuracy] => token_preprocessor t = None
                  /\ (postprocess_fn t = None
                      \/ postprocess_fn t = Some paws_postprocess_fn)
  | [squad] => token_preprocessor t = None
               /\ text_preprocessor t = One xquad
               /\ postprocess_fn t = Some qa
  | [bleu_fn] => t = snow_task
  | _ => False
  end.
Proof.
  revert t.
  apply (registered_task_cases
           (fun t =>
              match metric_fns t with
              | [] => cls t = Some TfdsTask
                      /\ (text_preprocessor t = One rekey_text
                          \/ text_preprocessor t = Many [rekey_text])
                      /\ token_preprocessor t = Some span_corruption
                      /\ postprocess_fn t = None
              | [accuracy] => token_preprocessor t = None
                              /\ (postprocess_fn t = None
                                  \/ postprocess_fn t = Some paws_postprocess_fn)
              | [squad] => token_preprocessor t = None
                           /\ text_preprocessor t = One xquad
                           /\ postprocess_fn t = Some qa
              | [bleu_fn] => t = snow_task
              | _ => False
              end));
    intros; cbn; auto.
Qed.

(** X11: every registered task has exactly one source of data: a TFDS
    dataset (class [TfdsTask]), a dataset function (no class given) or
    file patterns per split (class [TextLineTask]); and a task that
    names a dataset function or file patterns states which splits it
    has. *)
Theorem registered_task_source (t : task) :
  In (TaskAdd t) load ->
  (cls t = Some TfdsTask /\ tfds_name t <> None
   /\ dataset_fn t = None /\ split_to_filepattern t = None)
  \/ (cls t = None /\ tfds_name t = None
      /\ dataset_fn t <> None /\ split_to_filepattern t = None
      /\ declared_splits t <> None)
  \/ (cls t = Some TextLineTask /\ tfds_name t = None
      /\ dataset_fn t = None /\ split_to_filepattern t <> None
      /\ declared_splits t <> None).
Proof.
  revert t.
  apply (registered_task_cases
           (fun t =>
              (cls t = Some TfdsTask /\ tfds_name t <> None
               /\ dataset_fn t = None /\ split_to_filepattern t = None)
              \/ (cls t = None /\ tfds_name t = None
                  /\ dataset_fn t <> None /\ split_to_filepattern t = None
                  /\ declared_splits t <> None)
              \/ (cls t = Some TextLineTask /\ tfds_name t = None
                  /\ dataset_fn t = None /\ split_to_filepattern t <> None
                  /\ declared_splits t <> None)));
    intros; cbn;
    first [ left; repeat split; discriminate
          | right; left; repeat split; discriminate
          | right; right; repeat split; discriminate ].
Qed.

(* ================================================================== *)
(** * Further results: normalised names, verbatim dataset identifiers *)

Lemma replace_removes (old new : ascii) (s : string) :
  old <> new -> mentions old (replace old new s) = false.
Proof.
  intros Hne. induction s as [|c s IH]; cbn [replace mentions]; [reflexivity|].
  rewrite IH, orb_false_r.
  destruct (Ascii.eqb_spec c old) as [->|Hc].
  - apply Ascii.eqb_neq. congruence.
  - apply Ascii.eqb_neq. exact Hc.
Qed.

Lemma replace_absent (old new : ascii) (s : string) :
  mentions old s = false -> replace old new s = s.
Proof.
  induction s as [|c s IH]; cbn [replace mentions]; intros Hs; [reflexivity|].
  apply orb_false_iff in Hs as [Hc Hs]. rewrite Hc, (IH Hs). reflexivity.
Qed.

Lemma replace_length (old new : ascii) (s : string) :
  String.length (replace old new s) = String.length s.
Proof.
  induction s as [|c s IH]; cbn [replace String.length]; [reflexivity|].
  rewrite IH. reflexivity.
Qed.

Lemma mentions_app (c : ascii) (p s : string) :
  mentions c (p +:+ s) = mentions c p || mentions c s.
Proof.
  induction p as [|d p IH]; cbn [String.append mentions]; [reflexivity|].
  rewrite IH, orb_assoc. reflexivity.
Qed.

(** X12: the names of the mC4 and Wikipedia tasks never contain ['-'],
    whatever the language code is, they are as long as prefix and code
    together, and a code without ['-'] appears in them unchanged; the
    dataset identifiers are built from the code as it is: the mC4 splits
    are the code and the code followed by "-validation", the Wikipedia
    dataset is "wikipedia/20200301.<code>:1.0.0". *)
Theorem names_are_normalised_datasets_are_not (lang : string) :
  mentions "-" (mc4_name lang) = false
  /\ mentions "-" (wiki_name lang) = false
  /\ String.length (mc4_name lang) = 4 + String.length lang
  /\ String.length (wiki_name lang) = 5 + String.length lang
  /\ (mentions "-" lang = false ->
      mc4_name lang = "mc4." +:+ lang /\ wiki_name lang = "wiki." +:+ lang)
  /\ splits (mc4_task lang)
     = Some (SplitMap [ ("train", lang);
                        ("validation", lang +:+ "-validation") ])
  /\ tfds_name (wiki_task lang)
     = Some ("wikipedia/20200301." +:+ lang +:+ ":1.0.0").
Proof.
  unfold mc4_name, wiki_name.
  rewrite (format_prefix "mc4."), (format_prefix "wiki.") by reflexivity.
  assert (Hdash : mentions "-" (replace "-" "_" lang) = false)
    by (apply replace_removes; discriminate).
  split; [rewrite mentions_app, Hdash; reflexivity|].
  split; [rewrite mentions_app, Hdash; reflexivity|].
  split; [cbn [String.append String.length]; rewrite replace_length; reflexivity|].
  split; [cbn [String.append String.length]; rewrite replace_length; reflexivity|].
  split; [intros Hlang; rewrite (replace_absent _ _ _ Hlang); split; reflexivity|].
  split; reflexivity.
Qed.

(* ================================================================== *)
(** * Further results: sizes *)

Lemma length_pairs {X Y} (f g : X -> Y) (l : list X) :
  length (flat_map (fun x => [f x; g x]) l) = 2 * length l.
Proof. induction l as [|x l IH]; cbn [flat_map app length]; lia. Qed.

(** X13: one load registers nine mixtures and, beside the 135 tasks that
    do not depend on the outside tables, one task per mC4 language, two
    per PAWS-X language and one per XQuAD language of each of the two
    XQuAD tables. *)
Theorem load_registers_this_many :
  length (mixtures load) = 9
  /\ length (task_names load)
     = length MC4_LANGS + 2 * length PAWSX_LANGS
       + length XQUAD_LANGS_TRAIN_DEV + length XQUAD_LANGS_TEST + 135.
Proof.
  split; [rewrite mixtures_load; reflexivity|].
  rewrite task_names_load. unfold registered_names.
  repeat rewrite List.length_app. repeat rewrite List.length_map.
  rewrite length_pairs.
  change (length WIKI_LANGS) with 103.
  change (length XNLI_LANGS) with 15.
  change (length TYDIQA_LANGS) with 9.
  cbn [length]. lia.
Qed.

(* ================================================================== *)
(** * Further results: the tokenizer *)



(* ================================================================== *)
(** * Further results: how the mixtures relate *)

(** X15: the translate-train XQuAD mixture contains every task of the
    zero-shot XQuAD mixture, the English SQuAD task included; the PAWS-X
    translate mixture contains every task of the PAWS-X zero-shot mixture
    except the English task [paws], which it leaves out. *)
Theorem translate_mixtures_extend_zeroshot :
  (forall t, In t xquad_zeroshot -> In t xquad_translate)
  /\ In "squad_train_dev" xquad_translate
  /\ (forall t, In t pawsx -> t <> "paws" -> In t pawsx_translate)
  /\ ~ In "paws" pawsx_translate.
Proof using PAWSX_LANGS XQUAD_LANGS_TRAIN_DEV XQUAD_LANGS_TEST.
  clear MC4_LANGS Feature_required_default tokenize_with_preprocess as_text
        corpus_bleu.
  unfold xquad_zeroshot, xquad_translate, xquad_translate_train_dev, pawsx,
         pawsx_translate.
  split; [|split; [|split]].
  - intros t Ht. split_in Ht.
    repeat first [rewrite in_app_iff | progress cbn [In]]. tauto.
  - repeat first [rewrite in_app_iff | progress cbn [In]]. tauto.
  - intros t Ht Hne. split_in Ht.
    repeat first [rewrite in_app_iff | progress cbn [In]].
    intuition congruence.
  - intros Hin. split_in Hin.
    repeat match goal with
           | H : _ \/ _ |- _ => destruct H as [H|H]
           | H : False |- _ => destruct H
           | H : In _ (map _ _) |- _ => apply in_map_iff in H as [? [H ?]]
           end;
      unfold_names;
      match goal with
      | H : _ = "paws" |- _ => cbn [format String.append] in H; discriminate H
      end.
Qed.

Ltac disjoint_lists :=
  let a := fresh "a" in
  let Ha := fresh "Ha" in
  let Hb := fresh "Hb" in
  intros a Ha Hb; split_in Ha; split_in Hb; no_clash.

(** X16: no mixture lists a task twice, provided the outside tables have
    no repetition and no code [all_langs] and the mC4 codes no ['_']. *)
Theorem mixture_lists_have_no_repetition :
  Forall (fun lang => mentions "_" lang = false) MC4_LANGS ->
  List.NoDup MC4_LANGS ->
  List.NoDup PAWSX_LANGS ->
  List.NoDup XQUAD_LANGS_TRAIN_DEV ->
  List.NoDup XQUAD_LANGS_TEST ->
  ~ In "all_langs" PAWSX_LANGS ->
  ~ In "all_langs" XQUAD_LANGS_TEST ->
  forall m ts r, In (m, ts, r) (mixtures load) -> List.NoDup ts.
Proof.
  intros Hmc4 Dmc4 Dpawsx Dxtd Dxt Hpawsx Hxt m ts r Hm.
  pose proof XNLI_LANGS_no_all_langs as Hxnli.
  rewrite List.Forall_forall in Hmc4.
  pose proof WIKI_LANGS_no_underscore as Hwiki.
  rewrite List.Forall_forall in Hwiki.
  assert (Nmc4 : List.NoDup mc4).
  { apply NoDup_map_on; [|exact Dmc4].
    intros a b Ha Hb. apply mc4_name_injective; auto. }
  assert (Nwiki : List.NoDup wiki).
  { apply NoDup_map_on; [|exact NoDup_WIKI_LANGS].
    intros a b Ha Hb. apply wiki_name_injective; auto. }
  assert (Npd : List.NoDup (map pawsx_dev_test_name PAWSX_LANGS))
    by (family "pawsx_dev_test." Dpawsx).
  assert (Npt : List.NoDup (map pawsx_translate_name PAWSX_LANGS))
    by (family "pawsx_translate." Dpawsx).
  assert (Nxt : List.NoDup xquad_test) by (family "xquad_test." Dxt).
  rewrite mixtures_load in Hm. cbn [In] in Hm.
  repeat match goal with
         | H : _ \/ _ |- _ => destruct H as [H|H]
         | H : False |- _ => destruct H
         | H : (_, _, _) = (_, _, _) |- _ => injection H as <- <- <-
         end.
  - exact Nmc4.
  - exact Nwiki.
  - apply List.NoDup_app; [exact Nmc4|exact Nwiki|].
    unfold mc4, wiki. disjoint_lists.
  - unfold xnli_zeroshot.
    apply List.NoDup_app;
      [|family "xnli_dev_test." NoDup_XNLI_LANGS|disjoint_lists].
    constructor; [|one_name]. cbn [In]. intuition discriminate.
  - unfold pawsx.
    apply List.NoDup_app; [one_name| |disjoint_lists].
    apply List.NoDup_app; [one_name|exact Npd|disjoint_lists].
  - unfold pawsx_translate.
    apply List.NoDup_app; [exact Npt| |disjoint_lists].
    apply List.NoDup_app; [one_name|exact Npd|disjoint_lists].
  - unfold tydiqa.
    apply List.NoDup_app;
      [one_name|family "tydiqa_dev." NoDup_TYDIQA_LANGS|disjoint_lists].
  - unfold xquad_zeroshot.
    apply List.NoDup_app; [|exact Nxt|unfold xquad_test; disjoint_lists].
    constructor; [|one_name]. cbn [In]. intuition discriminate.
  - unfold xquad_translate, xquad_translate_train_dev.
    apply List.NoDup_app; [| |unfold xquad_test; disjoint_lists].
    + apply List.NoDup_app;
        [family "xquad_translate_train_dev." Dxtd|one_name|disjoint_lists].
    + apply List.NoDup_app; [one_name|exact Nxt|unfold xquad_test; disjoint_lists].
Qed.

(* ================================================================== *)
(** * Further results: targets of mixed shape *)





End Tasks.

(* ================================================================== *)
(** * The results on one concrete load *)

Local Abbreviation sample_load :=
  (load sample_MC4_LANGS sample_PAWSX_LANGS sample_XQUAD_LANGS_TRAIN_DEV
        sample_XQUAD_LANGS_TEST true sample_tokenize).

Lemma rate_num_examples_monotone_witness :
  (0 < DEFAULT_TEMPERATURE)%R /\ (3 <= 5)%positive
  /\ (rate_num_examples 3 DEFAULT_TEMPERATURE
      <= rate_num_examples 5 DEFAULT_TEMPERATURE)%R.
Proof.
  assert (HT : (0 < DEFAULT_TEMPERATURE)%R).
  { unfold DEFAULT_TEMPERATURE, lit_1_0, lit_0_3. cbn [of_int div Arith_R]. lra. }
  assert (Hmn : (3 <= 5)%positive) by lia.
  split; [exact HT|]. split; [exact Hmn|].
  exact (rate_num_examples_monotone DEFAULT_TEMPERATURE 3 5 HT Hmn).
Defined.

Lemma bleu_raises_NameError_witness :
  [PyStr "a b c d"] <> []
  /\ bleu sample_as_text sample_corpus_bleu module_globals
          [PyStr "a b c d"] [PyStr "a b c d"] sample_world
     = (Raise (NameError "tf"), sample_world).
Proof.
  assert (Hne : [PyStr "a b c d"] <> []) by discriminate.
  split; [exact Hne|].
  exact (proj2 (proj2 (proj2 (bleu_raises_NameError sample_as_text sample_corpus_bleu)))
           [PyStr "a b c d"] [PyStr "a b c d"] sample_world Hne).
Defined.

Lemma tokenizer_table_written_once_witness :
  "en" <> "ja"
  /\ apply_effects sample_load (∅ : gmap string (string -> string)) !! "en"
     = (∅ : gmap string (string -> string)) !! "en".
Proof.
  assert (Hk : "en" <> "ja") by discriminate.
  split; [exact Hk|].
  exact (proj1 (proj2 (proj2
           (tokenizer_table_written_once
              sample_MC4_LANGS sample_PAWSX_LANGS sample_XQUAD_LANGS_TRAIN_DEV
              sample_XQUAD_LANGS_TEST true sample_tokenize
              sample_as_text sample_corpus_bleu)))
           ∅ "en" Hk).
Defined.

Lemma snow_reads_three_tsv_files_witness :
  In (TaskAdd (snow_task true)) sample_load
  /\ name (snow_task true) = "snow"
  /\ snow_task true = snow_task true.
Proof.
  assert (Hin : In (TaskAdd (snow_task true)) sample_load).
  { destruct (registered_snow sample_MC4_LANGS sample_PAWSX_LANGS
                sample_XQUAD_LANGS_TRAIN_DEV sample_XQUAD_LANGS_TEST true
                sample_tokenize) as [pre E].
    rewrite E. apply in_or_app. right. left. reflexivity. }
  assert (Hname : name (snow_task true) = "snow") by reflexivity.
  split; [exact Hin|]. split; [exact Hname|].
  exact (proj1 (proj2
           (snow_reads_three_tsv_files
              sample_MC4_LANGS sample_PAWSX_LANGS sample_XQUAD_LANGS_TRAIN_DEV
              sample_XQUAD_LANGS_TEST true sample_tokenize))
           (snow_task true) Hin Hname).
Defined.

Lemma tasks_share_DEFAULT_OUTPUT_FEATURES_witness :
  true = true
  /\ getitem (module_store true) (DEFAULT_OUTPUT_FEATURES true) "targets"
     = Some (Feature (DEFAULT_VOCAB true) true true).
Proof.
  split; [reflexivity|].
  exact (proj1 (proj2 (proj2 (proj2
           (tasks_share_DEFAULT_OUTPUT_FEATURES
              sample_MC4_LANGS sample_PAWSX_LANGS sample_XQUAD_LANGS_TRAIN_DEV
              sample_XQUAD_LANGS_TEST true sample_tokenize eq_refl))))).
Defined.

Lemma mixture_constituents_registered_earlier_witness :
  sample_load
  = firstn 8 sample_load
    ++ MixtureAdd "mc4" (mc4 sample_MC4_LANGS) rate_mix :: skipn 9 sample_load
  /\ In "mc4.zh_Latn" (mc4 sample_MC4_LANGS)
  /\ In "mc4.zh_Latn" (task_names (firstn 8 sample_load)).
Proof.
  assert (Hsplit : sample_load
                   = firstn 8 sample_load
                     ++ MixtureAdd "mc4" (mc4 sample_MC4_LANGS) rate_mix
                        :: skipn 9 sample_load) by reflexivity.
  assert (Hin : In "mc4.zh_Latn" (mc4 sample_MC4_LANGS)).
  { do 7 right. left. reflexivity. }
  split; [exact Hsplit|]. split; [exact Hin|].
  exact (proj2
           (mixture_constituents_registered_earlier
              sample_MC4_LANGS sample_PAWSX_LANGS sample_XQUAD_LANGS_TRAIN_DEV
              sample_XQUAD_LANGS_TEST true sample_tokenize)
           (firstn 8 sample_load) (skipn 9 sample_load) "mc4"
           (mc4 sample_MC4_LANGS) rate_mix Hsplit "mc4.zh_Latn" Hin).
Defined.

Lemma task_names_collision_free_witness :
  Forall (fun lang => mentions "_" lang = false) sample_MC4_LANGS
  /\ List.NoDup sample_MC4_LANGS
  /\ List.NoDup sample_PAWSX_LANGS
  /\ List.NoDup sample_XQUAD_LANGS_TRAIN_DEV
  /\ List.NoDup sample_XQUAD_LANGS_TEST
  /\ ~ In "all_langs" sample_PAWSX_LANGS
  /\ ~ In "all_langs" sample_XQUAD_LANGS_TEST
  /\ collision_free sample_MC4_LANGS mc4_name
  /\ List.NoDup (task_names sample_load).
Proof.
  assert (Hmc4 : Forall (fun lang => mentions "_" lang = false) sample_MC4_LANGS)
    by (repeat constructor).
  assert (Dmc4 : List.NoDup sample_MC4_LANGS).
  { apply NoDup_ListNoDup, (bool_decide_eq_true_1 (NoDup sample_MC4_LANGS)).
    vm_compute. reflexivity. }
  assert (Dpawsx : List.NoDup sample_PAWSX_LANGS).
  { apply NoDup_ListNoDup, (bool_decide_eq_true_1 (NoDup sample_PAWSX_LANGS)).
    vm_compute. reflexivity. }
  assert (Dxtd : List.NoDup sample_XQUAD_LANGS_TRAIN_DEV).
  { apply NoDup_ListNoDup,
      (bool_decide_eq_true_1 (NoDup sample_XQUAD_LANGS_TRAIN_DEV)).
    vm_compute. reflexivity. }
  assert (Dxt : List.NoDup sample_XQUAD_LANGS_TEST).
  { apply NoDup_ListNoDup,
      (bool_decide_eq_true_1 (NoDup sample_XQUAD_LANGS_TEST)).
    vm_compute. reflexivity. }
  assert (Hpawsx : ~ In "all_langs" sample_PAWSX_LANGS).
  { cbn [In sample_PAWSX_LANGS]. intuition discriminate. }
  assert (Hxt : ~ In "all_langs" sample_XQUAD_LANGS_TEST).
  { cbn. intuition discriminate. }
  pose proof (task_names_collision_free
                sample_MC4_LANGS sample_PAWSX_LANGS sample_XQUAD_LANGS_TRAIN_DEV
                sample_XQUAD_LANGS_TEST true sample_tokenize
                Hmc4 Dmc4 Dpawsx Dxtd Dxt Hpawsx Hxt) as Hall.
  repeat (split; [assumption|]).
  split; [exact (proj1 Hall)|].
  exact (proj2 (proj2 (proj2 (proj2 (proj2 (proj2 (proj2 (proj2 Hall)))))))).
Defined.

(* ================================================================== *)
(** * The further results on the concrete load *)

Lemma module_bleu_scores_only_the_empty_corpus_witness :
  nothing_to_convert [PyList []; PyStr ""] [] = true
  /\ bleu sample_as_text sample_corpus_bleu module_globals
          [PyList []; PyStr ""] [] sample_world
     = (metric_of (sample_corpus_bleu [] [PyList []; PyList []]
                     bleu_corpus_options (TOKENIZERS sample_world)),
        scored_once sample_world).
Proof.
  assert (H : nothing_to_convert [PyList []; PyStr ""] [] = true) by reflexivity.
  split; [exact H|].
  exact (proj1 (module_bleu_scores_only_the_empty_corpus
                  sample_as_text sample_corpus_bleu
                  [PyList []; PyStr ""] [] sample_world) H).
Defined.



Lemma bleu_passes_on_as_text_exception_witness :
  "tf" ∈ sample_globals
  /\ Forall (fun y => exists v, sample_strict_as_text y = Return v) [PyStr "a"]
  /\ sample_strict_as_text (PyInt 7) = Raise TypeError
  /\ bleu sample_strict_as_text sample_corpus_bleu sample_globals
          [PyStr "a"; PyStr "b"] ([PyStr "a"] ++ PyInt 7 :: [PyStr "c"])
          sample_world
     = (Raise TypeError, sample_world).
Proof.
  assert (Htf : "tf" ∈ sample_globals)
    by (apply elem_of_union; left; apply elem_of_singleton; reflexivity).
  assert (Hdone : Forall (fun y => exists v, sample_strict_as_text y = Return v)
                         [PyStr "a"]).
  { constructor; [|constructor]. exists (PyStr "a"). reflexivity. }
  assert (Hx : sample_strict_as_text (PyInt 7) = Raise TypeError) by reflexivity.
  split; [exact Htf|]. split; [exact Hdone|]. split; [exact Hx|].
  exact (bleu_passes_on_as_text_exception sample_strict_as_text
           sample_corpus_bleu sample_globals [PyStr "a"; PyStr "b"]
           [PyStr "a"] (PyInt 7) [PyStr "c"] TypeError sample_world
           Htf Hdone Hx).
Defined.


Ltac in_sample_load :=
  cbn [load map flat_map app In
       sample_MC4_LANGS sample_PAWSX_LANGS sample_XQUAD_LANGS_TRAIN_DEV
       sample_XQUAD_LANGS_TEST WIKI_LANGS XNLI_LANGS TYDIQA_LANGS];
  repeat first [left; reflexivity | right].

Lemma mixture_names_are_not_task_names_witness :
  In "pawsx_translate" (mixture_names sample_load)
  /\ ~ In "pawsx_translate" (task_names sample_load).
Proof.
  assert (Hm : In "pawsx_translate" (mixture_names sample_load)).
  { rewrite mixture_names_load. do 5 right. left. reflexivity. }
  split; [exact Hm|].
  exact (proj2 (mixture_names_are_not_task_names
                  sample_MC4_LANGS sample_PAWSX_LANGS
                  sample_XQUAD_LANGS_TRAIN_DEV sample_XQUAD_LANGS_TEST true
                  sample_tokenize)
           "pawsx_translate" Hm).
Defined.

Lemma mixtures_cover_all_tasks_but_snow_witness :
  In "pawsx_translate.ja" (task_names sample_load)
  /\ "pawsx_translate.ja" <> "snow"
  /\ exists m ts r, In (m, ts, r) (mixtures sample_load)
                    /\ In "pawsx_translate.ja" ts.
Proof.
  assert (Ht : In "pawsx_translate.ja" (task_names sample_load)).
  { rewrite task_names_load. unfold registered_names.
    cbn [map flat_map app In sample_MC4_LANGS sample_PAWSX_LANGS
         sample_XQUAD_LANGS_TRAIN_DEV sample_XQUAD_LANGS_TEST
         WIKI_LANGS XNLI_LANGS TYDIQA_LANGS].
    repeat first [left; reflexivity | right]. }
  assert (Hne : "pawsx_translate.ja" <> "snow") by discriminate.
  split; [exact Ht|]. split; [exact Hne|].
  exact (proj1 (mixtures_cover_all_tasks_but_snow
                  sample_MC4_LANGS sample_PAWSX_LANGS
                  sample_XQUAD_LANGS_TRAIN_DEV sample_XQUAD_LANGS_TEST true
                  sample_tokenize)
           "pawsx_translate.ja" Ht Hne).
Defined.

Lemma zeroshot_mixtures_train_on_english_only_witness :
  In (TaskAdd (xnli_train_task true)) sample_load
  /\ declares_split "train" (xnli_train_task true)
  /\ In (name (xnli_train_task true)) xnli_zeroshot
  /\ name (xnli_train_task true) = "xnli_train".
Proof.
  assert (Hreg : In (TaskAdd (xnli_train_task true)) sample_load)
    by in_sample_load.
  assert (Hsplit : declares_split "train" (xnli_train_task true)).
  { exists ["train"]. split; [reflexivity|left; reflexivity]. }
  assert (Hin : In (name (xnli_train_task true)) xnli_zeroshot)
    by (left; reflexivity).
  split; [exact Hreg|]. split; [exact Hsplit|]. split; [exact Hin|].
  exact (proj1 (zeroshot_mixtures_train_on_english_only
                  sample_MC4_LANGS sample_PAWSX_LANGS
                  sample_XQUAD_LANGS_TRAIN_DEV sample_XQUAD_LANGS_TEST true
                  sample_tokenize (xnli_train_task true) Hreg Hsplit) Hin).
Defined.

Lemma registered_task_pipeline_witness :
  In (TaskAdd (tydiqa_dev_task true "ko")) sample_load
  /\ token_preprocessor (tydiqa_dev_task true "ko") = None
  /\ text_preprocessor (tydiqa_dev_task true "ko") = One xquad
  /\ postprocess_fn (tydiqa_dev_task true "ko") = Some qa.
Proof.
  assert (Hreg : In (TaskAdd (tydiqa_dev_task true "ko")) sample_load)
    by in_sample_load.
  split; [exact Hreg|].
  exact (registered_task_pipeline
           sample_MC4_LANGS sample_PAWSX_LANGS sample_XQUAD_LANGS_TRAIN_DEV
           sample_XQUAD_LANGS_TEST true sample_tokenize
           (tydiqa_dev_task true "ko") Hreg).
Defined.

Lemma registered_task_source_witness :
  In (TaskAdd (pawsx_all_langs_task true)) sample_load
  /\ ((cls (pawsx_all_langs_task true) = Some TfdsTask
       /\ tfds_name (pawsx_all_langs_task true) <> None
       /\ dataset_fn (pawsx_all_langs_task true) = None
       /\ split_to_filepattern (pawsx_all_langs_task true) = None)
      \/ (cls (pawsx_all_langs_task true) = None
          /\ tfds_name (pawsx_all_langs_task true) = None
          /\ dataset_fn (pawsx_all_langs_task true) <> None
          /\ split_to_filepattern (pawsx_all_langs_task true) = None
          /\ declared_splits (pawsx_all_langs_task true) <> None)
      \/ (cls (pawsx_all_langs_task true) = Some TextLineTask
          /\ tfds_name (pawsx_all_langs_task true) = None
          /\ dataset_fn (pawsx_all_langs_task true) = None
          /\ split_to_filepattern (pawsx_all_langs_task true) <> None
          /\ declared_splits (pawsx_all_langs_task true) <> None)).
Proof.
  assert (Hreg : In (TaskAdd (pawsx_all_langs_task true)) sample_load)
    by in_sample_load.
  split; [exact Hreg|].
  exact (registered_task_source
           sample_MC4_LANGS sample_PAWSX_LANGS sample_XQUAD_LANGS_TRAIN_DEV
           sample_XQUAD_LANGS_TEST true sample_tokenize
           (pawsx_all_langs_task true) Hreg).
Defined.

Lemma names_are_normalised_datasets_are_not_witness :
  mentions "-" "ja" = false
  /\ mc4_name "ja" = "mc4." +:+ "ja" /\ wiki_name "ja" = "wiki." +:+ "ja".
Proof.
  assert (H : mentions "-" "ja" = false) by reflexivity.
  split; [exact H|].
  exact (proj1 (proj2 (proj2 (proj2 (proj2
           (names_are_normalised_datasets_are_not true "ja"))))) H).
Defined.

Lemma translate_mixtures_extend_zeroshot_witness :
  In "xquad_test.all_langs" (xquad_zeroshot sample_XQUAD_LANGS_TEST)
  /\ In "xquad_test.all_langs"
        (xquad_translate sample_XQUAD_LANGS_TRAIN_DEV sample_XQUAD_LANGS_TEST).
Proof.
  assert (H : In "xquad_test.all_langs" (xquad_zeroshot sample_XQUAD_LANGS_TEST))
    by (right; left; reflexivity).
  split; [exact H|].
  exact (proj1 (translate_mixtures_extend_zeroshot
                  sample_PAWSX_LANGS sample_XQUAD_LANGS_TRAIN_DEV
                  sample_XQUAD_LANGS_TEST)
           "xquad_test.all_langs" H).
Defined.

Lemma mixture_lists_have_no_repetition_witness :
  Forall (fun lang => mentions "_" lang = false) sample_MC4_LANGS
  /\ List.NoDup sample_MC4_LANGS
  /\ List.NoDup sample_PAWSX_LANGS
  /\ List.NoDup sample_XQUAD_LANGS_TRAIN_DEV
  /\ List.NoDup sample_XQUAD_LANGS_TEST
  /\ ~ In "all_langs" sample_PAWSX_LANGS
  /\ ~ In "all_langs" sample_XQUAD_LANGS_TEST
  /\ In ("pawsx_translate", pawsx_translate sample_PAWSX_LANGS, rate_1_0)
        (mixtures sample_load)
  /\ List.NoDup (pawsx_translate sample_PAWSX_LANGS).
Proof.
  assert (Hmc4 : Forall (fun lang => mentions "_" lang = false) sample_MC4_LANGS)
    by (repeat constructor).
  assert (Dmc4 : List.NoDup sample_MC4_LANGS).
  { apply NoDup_ListNoDup, (bool_decide_eq_true_1 (NoDup sample_MC4_LANGS)).
    vm_compute. reflexivity. }
  assert (Dpawsx : List.NoDup sample_PAWSX_LANGS).
  { apply NoDup_ListNoDup, (bool_decide_eq_true_1 (NoDup sample_PAWSX_LANGS)).
    vm_compute. reflexivity. }
  assert (Dxtd : List.NoDup sample_XQUAD_LANGS_TRAIN_DEV).
  { apply NoDup_ListNoDup,
      (bool_decide_eq_true_1 (NoDup sample_XQUAD_LANGS_TRAIN_DEV)).
    vm_compute. reflexivity. }
  assert (Dxt : List.NoDup sample_XQUAD_LANGS_TEST).
  { apply NoDup_ListNoDup,
      (bool_decide_eq_true_1 (NoDup sample_XQUAD_LANGS_TEST)).
    vm_compute. reflexivity. }
  assert (Hpawsx : ~ In "all_langs" sample_PAWSX_LANGS).
  { cbn [In sample_PAWSX_LANGS]. intuition discriminate. }
  assert (Hxt : ~ In "all_langs" sample_XQUAD_LANGS_TEST).
  { cbn. intuition discriminate. }
  assert (Hm : In ("pawsx_translate", pawsx_translate sample_PAWSX_LANGS, rate_1_0)
                  (mixtures sample_load)).
  { rewrite mixtures_load. do 5 right. left. reflexivity. }
  repeat (split; [assumption|]).
  exact (mixture_lists_have_no_repetition
           sample_MC4_LANGS sample_PAWSX_LANGS sample_XQUAD_LANGS_TRAIN_DEV
           sample_XQUAD_LANGS_TEST true sample_tokenize
           Hmc4 Dmc4 Dpawsx Dxtd Dxt Hpawsx Hxt
           "pawsx_translate" (pawsx_translate sample_PAWSX_LANGS) rate_1_0 Hm).
Defined.
